(** * django-validators: validators, normalisers and the cleaner

    A shallow embedding of [validators/validators.py].  Python values are a
    small tagged union, text is a list of Unicode code points, and an
    operation that can raise returns a [result].  The class hierarchy of the
    normalisers is an enumeration with one dispatch function per method.
    What the code takes from outside the repository is a parameter: the
    Unicode database behind the methods of [str], brazilnum's two functions,
    django's table of date formats, [strftime] and the clock. *)

From Stdlib Require Import String Ascii DecimalString.
From Stdlib Require Import List Bool Arith ZArith NArith Lia.
Import ListNotations.

(** ** Python values *)

(** A character is its Unicode code point; a [str] is the sequence of them. *)
Definition char := N.
Definition str := list char.

(** A literal of the source, written with characters below U+0100. *)
Definition lit (s : string) : str := map N_of_ascii (list_ascii_of_string s).

(** [datetime.date]: compared by year, then month, then day. *)
Record date := mkdate { year : N; month : N; day : N }.

Inductive pyval :=
| PyNone
| PyBool (b : bool)
| PyInt (z : Z)
| PyStr (s : str)
| PyDate (d : date).

(** What [if x:] and [not x] test. *)
Definition truthy (v : pyval) : bool :=
  match v with
  | PyNone => false
  | PyBool b => b
  | PyInt z => negb (z =? 0)%Z
  | PyStr s => match s with [] => false | _ :: _ => true end
  | PyDate _ => true
  end.

Fixpoint zero_pad (width : nat) (s : str) : str :=
  match width with
  | O => s
  | S w => if length s <? width then zero_pad w (48%N :: s) else s
  end.

Definition decimal (n : N) : str := lit (NilZero.string_of_uint (N.to_uint n)).

(** [date.isoformat()], which is [str] of a date. *)
Definition isoformat (d : date) : str :=
  zero_pad 4 (decimal (year d)) ++ lit "-" ++ zero_pad 2 (decimal (month d))
    ++ lit "-" ++ zero_pad 2 (decimal (day d)).

(** The builtin [str(x)]. *)
Definition py_str (v : pyval) : str :=
  match v with
  | PyNone => lit "None"
  | PyBool true => lit "True"
  | PyBool false => lit "False"
  | PyInt z => lit (NilZero.string_of_int (Z.to_int z))
  | PyStr s => s
  | PyDate d => isoformat d
  end.

(** ** Exceptions *)

Inductive exn :=
| TypeError
| AttributeError
| IndexError
| ReError
| ValidationError (msg : str)
| OtherError (cls : nat) (msg : str).

Inductive result (A : Type) :=
| Ok (a : A)
| Raise (e : exn).

Arguments Ok {A} a.
Arguments Raise {A} e.

Definition bind {A B : Type} (c : result A) (k : A -> result B) : result B :=
  match c with
  | Ok a => k a
  | Raise e => Raise e
  end.

Notation "x <- c ;; k" := (bind c (fun x => k))
  (at level 61, c at next level, right associativity).

(** ** The character tables of [str] *)

Definition in_range (lo hi c : char) : bool := ((lo <=? c) && (c <=? hi))%N.
Arguments in_range (lo hi c)%_N.

Definition in_ranges (rs : list (char * char)) (c : char) : bool :=
  existsb (fun r => in_range (fst r) (snd r) c) rs.

(** One of 0-9. *)
Definition is_ascii_digit (c : char) : bool := in_range 0x30 0x39 c.

(** [str.isdigit], [str.isalpha], [str.isalnum], [str.strip] and [str.upper]
    read the Unicode database of the interpreter.  The code is modelled over
    any database: what a one-character string answers to the three
    predicates, whether [strip] takes it for white space, and the characters
    [upper] puts in its place. *)
Class unicode_database := {
  str_isdigit : char -> bool;
  str_isalpha : char -> bool;
  str_isalnum : char -> bool;
  str_isspace : char -> bool;
  upper_char : char -> str
}.

(** Python's database, written out for the blocks U+0000..U+00FF (Basic
    Latin and Latin-1 Supplement) and, past them, for the code points that
    [upper] reaches from these blocks (U+0178, U+039C) and for U+01F0 and
    U+030C, which an example needs; the white space table is the whole of
    Unicode's.  A character that is not listed is outside this table; the
    results that hold of every text are proved for every database. *)

(** General category Nd. *)
Definition isdecimal_table (c : char) : bool := in_range 0x30 0x39 c.

(** Numeric type Digit or Decimal: 0-9 and the superscripts 2, 3 and 1. *)
Definition isdigit_table (c : char) : bool :=
  in_ranges [(0x30, 0x39); (0xB2, 0xB3); (0xB9, 0xB9)]%N c.

(** Any numeric type: the digits and the fractions 1/4, 1/2 and 3/4. *)
Definition isnumeric_table (c : char) : bool :=
  in_ranges [(0x30, 0x39); (0xB2, 0xB3); (0xB9, 0xB9); (0xBC, 0xBE)]%N c.

(** General categories Lu, Ll, Lt, Lm and Lo. *)
Definition isalpha_table (c : char) : bool :=
  in_ranges [(0x41, 0x5A); (0x61, 0x7A); (0xAA, 0xAA); (0xB5, 0xB5);
             (0xBA, 0xBA); (0xC0, 0xD6); (0xD8, 0xF6); (0xF8, 0xFF);
             (0x178, 0x178); (0x1F0, 0x1F0); (0x39C, 0x39C)]%N c.

(** [isalnum] is any of [isalpha], [isdecimal], [isdigit], [isnumeric]. *)
Definition isalnum_table (c : char) : bool :=
  isalpha_table c || isdecimal_table c || isdigit_table c
  || isnumeric_table c.

Definition isspace_table (c : char) : bool :=
  in_ranges [(0x09, 0x0D); (0x1C, 0x20); (0x85, 0x85); (0xA0, 0xA0);
             (0x1680, 0x1680); (0x2000, 0x200A); (0x2028, 0x2029);
             (0x202F, 0x202F); (0x205F, 0x205F); (0x3000, 0x3000)]%N c.

(** The full upper-case mapping of one character: it may be several. *)
Definition upper_table (c : char) : str :=
  (if in_range 0x61 0x7A c then [c - 32]
   else if c =? 0xB5 then [0x39C]
   else if c =? 0xDF then [0x53; 0x53]
   else if in_range 0xE0 0xFE c && negb (c =? 0xF7) then [c - 32]
   else if c =? 0xFF then [0x178]
   else if c =? 0x1F0 then [0x4A; 0x30C]
   else [c])%N.

#[global] Instance python_database : unicode_database :=
  {| str_isdigit := isdigit_table;
     str_isalpha := isalpha_table;
     str_isalnum := isalnum_table;
     str_isspace := isspace_table;
     upper_char := upper_table |}.

(** ** Regular expressions: [re.fullmatch]

    The patterns of the validators are kept as the text the source writes and
    compiled by [re_compile], which reads the part of Python's syntax they
    use: literal characters, [.], classes of characters and ranges, and the
    quantifiers [*], [+], [?], [{m}] and [{m,n}].  A pattern with anything
    else is outside this model, and [re_compile] answers [None] for it; the
    results below speak of the patterns that compile. *)

Inductive regex :=
| Empty
| Eps
| Dot
| Class (ranges : list (char * char))
| Cat (r1 r2 : regex)
| Alt (r1 r2 : regex)
| Star (r : regex).

Fixpoint power (r : regex) (k : nat) : regex :=
  match k with
  | O => Eps
  | S k' => Cat r (power r k')
  end.

Fixpoint upto (r : regex) (k : nat) : regex :=
  match k with
  | O => Eps
  | S k' => Alt Eps (Cat r (upto r k'))
  end.

(** [r{m,n}]: [m] copies, then at most [n - m] more. *)
Definition rep (r : regex) (m n : nat) : regex := Cat (power r m) (upto r (n - m)).

Definition is_special (c : char) : bool :=
  existsb (N.eqb c) (lit "\^$*+?{}[]()|.").

Fixpoint parse_class (p : str) (acc : list (char * char))
  : option (list (char * char) * str) :=
  match p with
  | [] => None
  | c :: rest =>
      if (c =? 93)%N then
        match acc with [] => None | _ :: _ => Some (rev acc, rest) end
      else if (c =? 92)%N || (c =? 94)%N || (c =? 91)%N then None
      else
        match rest with
        | d :: hi :: rest' =>
            if (d =? 45)%N && negb (hi =? 93)%N then
              if (hi =? 92)%N || (hi <? c)%N then None
              else parse_class rest' ((c, hi) :: acc)
            else parse_class rest ((c, c) :: acc)
        | _ => parse_class rest ((c, c) :: acc)
        end
  end.

Fixpoint parse_digits (p : str) (acc : option nat) : option nat * str :=
  match p with
  | c :: rest =>
      if is_ascii_digit c then
        parse_digits rest
          (Some (10 * match acc with Some a => a | None => 0 end
                 + N.to_nat (c - 48)))
      else (acc, p)
  | [] => (acc, p)
  end.

(** What follows [{]: [m}] or [m,n}]. *)
Definition parse_bounds (p : str) : option (nat * nat * str) :=
  match parse_digits p None with
  | (Some m, c :: rest) =>
      if (c =? 125)%N then Some (m, m, rest)
      else if (c =? 44)%N then
        match parse_digits rest None with
        | (Some n, c' :: rest') =>
            if (c' =? 125)%N && (m <=? n) then Some (m, n, rest') else None
        | _ => None
        end
      else None
  | _ => None
  end.

Definition parse_atom (p : str) : option (regex * str) :=
  match p with
  | [] => None
  | c :: rest =>
      if (c =? 46)%N then Some (Dot, rest)
      else if (c =? 91)%N then
        match parse_class rest [] with
        | Some (rs, rest') => Some (Class rs, rest')
        | None => None
        end
      else if is_special c then None
      else Some (Class [(c, c)], rest)
  end.

Definition parse_quantifier (r : regex) (p : str) : option (regex * str) :=
  match p with
  | c :: rest =>
      if (c =? 42)%N then Some (Star r, rest)
      else if (c =? 43)%N then Some (Cat r (Star r), rest)
      else if (c =? 63)%N then Some (Alt Eps r, rest)
      else if (c =? 123)%N then
        match parse_bounds rest with
        | Some (m, n, rest') => Some (rep r m n, rest')
        | None => None
        end
      else Some (r, p)
  | [] => Some (r, p)
  end.

Fixpoint parse_seq (fuel : nat) (p : str) : option regex :=
  match p with
  | [] => Some Eps
  | _ :: _ =>
      match fuel with
      | O => None
      | S fuel' =>
          match parse_atom p with
          | None => None
          | Some (a, rest) =>
              match parse_quantifier a rest with
              | None => None
              | Some (q, rest') =>
                  match parse_seq fuel' rest' with
                  | None => None
                  | Some tail => Some (Cat q tail)
                  end
              end
          end
      end
  end.

(** Every atom takes a character, so the length of the pattern is fuel
    enough. *)
Definition re_compile (pattern : str) : option regex :=
  parse_seq (length pattern) pattern.

Fixpoint nullable (r : regex) : bool :=
  match r with
  | Empty => false
  | Eps => true
  | Dot => false
  | Class _ => false
  | Cat r1 r2 => nullable r1 && nullable r2
  | Alt r1 r2 => nullable r1 || nullable r2
  | Star _ => true
  end.

(** [.] matches every character but the newline: the validators pass no
    flag. *)
Definition dot_matches (c : char) : bool := negb (c =? 10)%N.

Fixpoint deriv (c : char) (r : regex) : regex :=
  match r with
  | Empty => Empty
  | Eps => Empty
  | Dot => if dot_matches c then Eps else Empty
  | Class rs => if in_ranges rs c then Eps else Empty
  | Cat r1 r2 =>
      if nullable r1 then Alt (Cat (deriv c r1) r2) (deriv c r2)
      else Cat (deriv c r1) r2
  | Alt r1 r2 => Alt (deriv c r1) (deriv c r2)
  | Star r1 => Cat (deriv c r1) (Star r1)
  end.

(** The whole of [s] is in the language of [r]. *)
Fixpoint matches (r : regex) (s : str) : bool :=
  match s with
  | [] => nullable r
  | c :: rest => matches (deriv c r) rest
  end.

(** [re.fullmatch(pattern, string)], read for whether it found a match. *)
Definition re_fullmatch (pattern : str) (string : pyval) : result bool :=
  match re_compile pattern with
  | None => Raise ReError
  | Some r =>
      match string with
      | PyStr s => Ok (matches r s)
      | _ => Raise TypeError
      end
  end.

Section Code.

Context {U : unicode_database}.

(** ** Methods of [str] *)

Definition str_upper (s : str) : str := flat_map upper_char s.

Fixpoint dropwhile (p : char -> bool) (s : str) : str :=
  match s with
  | [] => []
  | c :: rest => if p c then dropwhile p rest else s
  end.

Definition str_lstrip (s : str) : str := dropwhile str_isspace s.
Definition str_rstrip (s : str) : str := rev (dropwhile str_isspace (rev s)).
Definition str_strip (s : str) : str := str_rstrip (str_lstrip s).

(** [text.replace(r, "")] for a one-character [r]. *)
Fixpoint replace_by_empty (r : char) (text : str) : str :=
  match text with
  | [] => []
  | c :: rest =>
      if (c =? r)%N then replace_by_empty r rest
      else c :: replace_by_empty r rest
  end.

(** [t[i:j]] and [t[i:]] for non-negative bounds; a slice never raises. *)
Definition slice (i j : nat) (t : str) : str := firstn (j - i) (skipn i t).
Definition slice_from (i : nat) (t : str) : str := skipn i t.

(** [len(x)]: only text has a length among the values modelled. *)
Definition py_len (v : pyval) : result nat :=
  match v with
  | PyStr s => Ok (length s)
  | _ => Raise TypeError
  end.

(** A method of [str] looked up on any value. *)
Definition str_method (f : str -> str) (v : pyval) : result pyval :=
  match v with
  | PyStr s => Ok (PyStr (f s))
  | _ => Raise AttributeError
  end.

(** ** Validators

    A validator is its [__call__]: a function from the value validated to the
    value returned, or to the exception raised. *)

(** [class Validator]. *)
Definition Validator (input_to_validate : pyval) : result pyval :=
  Ok (PyBool true).

(** [_remove_other_chars(is_valid_func)(text)].  [filter(None, text)] keeps
    the items that are true, and every one-character string is. *)
Definition _remove_other_chars (is_valid_func : option (char -> bool))
    (text : pyval) : pyval :=
  if truthy text then
    let text := py_str text in
    PyStr (filter (match is_valid_func with
                   | Some f => f
                   | None => fun _ => true
                   end) text)
  else text.

Definition _remove_non_digit_chars := _remove_other_chars (Some str_isdigit).
Definition _remove_non_alnum_chars := _remove_other_chars (Some str_isalnum).
Definition _remove_non_alpha_chars := _remove_other_chars (Some str_isalpha).

(** [class CpfValidator].  [validate_cpf] is brazilnum's, a library outside
    the repository: the class is modelled over any such function. *)
Definition CpfValidator (validate_cpf : pyval -> result pyval)
    (param : pyval) : result pyval :=
  if negb (truthy param) then Ok (PyBool false)
  else
    r <- validate_cpf param ;;
    if truthy r then Ok (PyBool true) else Ok (PyBool false).

(** [class CnpjValidator], over brazilnum's [validate_cnpj]. *)
Definition CnpjValidator (validate_cnpj : pyval -> result pyval)
    (param : pyval) : result pyval :=
  if negb (truthy param) then Ok (PyBool false)
  else
    r <- validate_cnpj param ;;
    if truthy r then Ok (PyBool true) else Ok (PyBool false).

(** [class RegexValidator]: the class attribute and [__init__], which keeps
    the class's pattern unless it is given a non-empty one. *)
Definition RegexValidator_regex : str := lit ".*".

Definition RegexValidator_init (class_regex : str) (regex : option str) : str :=
  match regex with
  | Some (c :: r) => c :: r
  | _ => class_regex
  end.

Definition RegexValidator (regex : str) (input_to_validate : pyval)
  : result pyval :=
  m <- re_fullmatch regex input_to_validate ;;
  Ok (PyBool (if m then true else false)).

Definition NumericValidator := RegexValidator (lit "[0-9]*").
Definition AlphaValidator := RegexValidator (lit "[a-zA-Z]*").
Definition AlnumValidator := RegexValidator (lit "[a-zA-Z0-9]*").
Definition PhoneValidator := RegexValidator (lit "[0-9]{10,11}").
Definition PassportValidator := RegexValidator (lit "[A-Z]{2}[0-9]{6}").
Definition IDCardValidator := RegexValidator (lit "[0-9]{9}").
Definition PostCodeValidator := RegexValidator (lit "[0-9]{8}").

Definition date_lt (a b : date) : bool :=
  ((year a <? year b)
   || ((year a =? year b)
       && ((month a <? month b)
           || ((month a =? month b) && (day a <? day b)))))%N.

(** [class DobValidator].  [today] is what [datetime.date.today()] answers.
    The [else] branch evaluates [False] and returns nothing, so the call
    returns [None]. *)
Definition DobValidator (today : date) (date : pyval) : result pyval :=
  match date with
  | PyDate d => if date_lt d today then Ok (PyBool true) else Ok PyNone
  | _ => Raise TypeError
  end.

(** ** Normalisers *)

(** The class attributes of [Normaliser]. *)
Record attrs := mkattrs {
  remove : str;
  strip : bool;
  lstrip : bool;
  rstrip : bool
}.

Definition Normaliser_attrs : attrs :=
  {| remove := []; strip := true; lstrip := false; rstrip := false |}.

Definition is_true (o : option bool) : bool :=
  match o with
  | Some true => true
  | _ => false
  end.

(** [Normaliser.__init__]: an argument replaces the class attribute only when
    it is true, and [strip] is switched off when one side only is asked for
    and [strip] was not given. *)
Definition Normaliser_init (remove_arg : option str)
    (strip_arg lstrip_arg rstrip_arg : option bool) : attrs :=
  {| remove := match remove_arg with
               | Some (c :: r) => c :: r
               | _ => remove Normaliser_attrs
               end;
     strip := if (is_true lstrip_arg || is_true rstrip_arg)
                 && match strip_arg with None => true | Some _ => false end
              then false
              else if is_true strip_arg then true else strip Normaliser_attrs;
     lstrip := if is_true lstrip_arg then true else lstrip Normaliser_attrs;
     rstrip := if is_true rstrip_arg then true else rstrip Normaliser_attrs |}.

(** The classes, each with what its instances hold.  [DateNormaliser] reads
    django's [DATE_INPUT_FORMATS] and calls the platform's [strftime] at each
    call; both are outside the repository and given with the instance. *)
Inductive normaliser :=
| NullNormaliser
| Normaliser (a : attrs)
| NumericNormaliser
| AlphaNormaliser
| AlnumNormaliser
| PhoneNormaliser
| MobNormaliser
| PassportNormaliser
| IDCardNormaliser
| PostCodeNormaliser
| CpfNormaliser
| CnpjNormaliser
| DateNormaliser (date_formats : list str) (strftime : date -> str -> str).

(** The classes derived from [Normaliser]; the other two are
    [NullNormaliser] and [DateNormaliser], which derives from it. *)
Definition derives_Normaliser (n : normaliser) : bool :=
  match n with
  | NullNormaliser | DateNormaliser _ _ => false
  | _ => true
  end.

(** [Normaliser._inp]: the loop over [remove], then the three strips. *)
Definition Normaliser_inp (a : attrs) (text_to_normalise : pyval)
  : result pyval :=
  t <- fold_left (fun acc r => t <- acc ;; str_method (replace_by_empty r) t)
         (remove a) (Ok text_to_normalise) ;;
  t <- (if strip a then str_method str_strip t else Ok t) ;;
  t <- (if lstrip a then str_method str_lstrip t else Ok t) ;;
  if rstrip a then str_method str_rstrip t else Ok t.

(** The method [_inp] as each class resolves it. *)
Definition _inp (n : normaliser) (text_to_normalise : pyval) : result pyval :=
  match n with
  | NullNormaliser | DateNormaliser _ _ => Raise AttributeError
  | Normaliser a => Normaliser_inp a text_to_normalise
  | AlphaNormaliser => Ok (_remove_non_alpha_chars text_to_normalise)
  | AlnumNormaliser => Ok (_remove_non_alnum_chars text_to_normalise)
  | PassportNormaliser =>
      str_method str_upper (_remove_non_alnum_chars text_to_normalise)
  | _ => Ok (_remove_non_digit_chars text_to_normalise)
  end.

(** The method [inp]: [NullNormaliser]'s passes the data through,
    [Normaliser]'s replaces what is not true by the empty string, converts
    with [str] and calls [_inp]. *)
Definition inp (n : normaliser) (text_to_normalise : pyval) : result pyval :=
  match n with
  | NullNormaliser | DateNormaliser _ _ => Ok text_to_normalise
  | _ =>
      let t := if negb (truthy text_to_normalise) then PyStr []
               else text_to_normalise in
      let t := PyStr (py_str t) in
      _inp n t
  end.

(** [__call__] is an alias for [inp]. *)
Definition call (n : normaliser) (data : pyval) : result pyval := inp n data.

(** A display template applied to text whose length was just taken. *)
Definition formatted (f : str -> str) (t : pyval) : result pyval :=
  match t with
  | PyStr s => Ok (PyStr (f s))
  | _ => Raise TypeError
  end.

(** The method [_outp] as each class resolves it. *)
Definition _outp (n : normaliser) (t : pyval) : result pyval :=
  match n with
  | NullNormaliser | DateNormaliser _ _ => Raise AttributeError
  | Normaliser _ | NumericNormaliser | AlphaNormaliser | AlnumNormaliser =>
      Ok t
  | PhoneNormaliser | MobNormaliser =>
      len <- py_len t ;;
      if negb (existsb (Nat.eqb len) [10; 11]) then Ok t
      else formatted (fun t => lit "(" ++ slice 0 2 t ++ lit ") "
                               ++ slice 2 6 t ++ lit " " ++ slice_from 6 t) t
  | PassportNormaliser =>
      len <- py_len t ;;
      if negb (len =? 8) then Ok t
      else formatted (fun t => slice 0 2 t ++ lit " " ++ slice 2 5 t
                               ++ lit " " ++ slice 5 8 t) t
  | IDCardNormaliser =>
      len <- py_len t ;;
      if negb (len =? 9) then Ok t
      else formatted (fun t => slice 0 4 t ++ lit "." ++ slice 4 8 t
                               ++ lit "-" ++ slice 8 9 t) t
  | PostCodeNormaliser =>
      len <- py_len t ;;
      if negb (len =? 8) then Ok t
      else formatted (fun t => slice 0 5 t ++ lit "-" ++ slice 5 8 t) t
  | CpfNormaliser =>
      len <- py_len t ;;
      if negb (len =? 11) then Ok t
      else formatted (fun t => slice 0 3 t ++ lit "." ++ slice 3 6 t
                               ++ lit "." ++ slice 6 9 t ++ lit "-"
                               ++ slice 9 11 t) t
  | CnpjNormaliser =>
      len <- py_len t ;;
      if negb (len =? 14) then Ok t
      else formatted (fun t => slice 0 2 t ++ lit "." ++ slice 2 5 t
                               ++ lit "." ++ slice 5 8 t ++ lit "/"
                               ++ slice 8 12 t ++ lit "-" ++ slice 12 14 t) t
  end.

(** The method [outp]: [NullNormaliser]'s, [DateNormaliser]'s, which formats
    a date with the second entry of the table, and [Normaliser]'s. *)
Definition outp (n : normaliser) (text_to_normalise : pyval) : result pyval :=
  match n with
  | NullNormaliser => Ok text_to_normalise
  | DateNormaliser date_formats strftime =>
      match text_to_normalise with
      | PyDate dt =>
          if match date_formats with [] => false | _ :: _ => true end
             && (0 <? length date_formats)
          then
            match nth_error date_formats 1 with
            | Some fmt => Ok (PyStr (strftime dt fmt))
            | None => Raise IndexError
            end
          else Ok text_to_normalise
      | _ => Ok text_to_normalise
      end
  | _ =>
      let t := if negb (truthy text_to_normalise) then PyStr []
               else text_to_normalise in
      let t := PyStr (py_str t) in
      t <- inp n t ;;
      _outp n t
  end.

(** ** The cleaner *)

Record Cleaner := mkCleaner {
  validator : pyval -> result pyval;
  normaliser_of : normaliser;
  exception_msg : str;
  exception : str -> exn
}.

(** [Cleaner.__init__] with its defaults. *)
Definition Cleaner_init (validator_arg : option (pyval -> result pyval))
    (normaliser_arg : option normaliser) (exception_msg_arg : option str)
    (exception_arg : option (str -> exn)) : Cleaner :=
  {| validator := match validator_arg with Some v => v | None => Validator end;
     normaliser_of := match normaliser_arg with
                      | Some n => n
                      | None => Normaliser (Normaliser_init None None None None)
                      end;
     exception_msg := match exception_msg_arg with
                      | Some m => m
                      | None => lit "validation error"
                      end;
     exception := match exception_arg with
                  | Some e => e
                  | None => ValidationError
                  end |}.

(** [Cleaner.execute]. *)
Definition execute (s : Cleaner) (text : pyval) : result pyval :=
  text <- call (normaliser_of s) text ;;
  v <- validator s text ;;
  if truthy v then Ok text else Raise (exception s (exception_msg s)).

(** [Cleaner.__call__]. *)
Definition Cleaner_call (s : Cleaner) (text : pyval) : result pyval :=
  execute s text.

(** [Cleaner.ft]. *)
Definition ft (s : Cleaner) (text : pyval) : result pyval :=
  outp (normaliser_of s) text.

End Code.

(** ** brazilnum

    [validate_cpf] and [validate_cnpj] come from the brazilnum package, which
    the repository requires and does not contain. *)

(** Modelled from the spec: the digits left once every character that is not
    one of 0-9 is stripped (section 4.2). *)
Definition digits_of (s : str) : list N :=
  map (fun c => c - 48)%N (filter is_ascii_digit s).

(** Modelled from the spec: the weights of section 4.5 for a prefix of [n]
    digits, descending from [n + 1] to [2]. *)
Definition weights_descending (n : nat) : list N :=
  map (fun i => N.of_nat (n + 1 - i)) (seq 0 n).

(** Modelled from the spec: the weights of the 14-digit layout of section
    4.2, cycling through 2..9 from the last digit of the prefix backwards,
    the sequence under which the identifiers of the repository's tests
    validate. *)
Definition weights_cycling (n : nat) : list N :=
  map (fun i => N.of_nat (2 + (n - 1 - i) mod 8)) (seq 0 n).

Definition weighted_sum (ws ds : list N) : N :=
  fold_right N.add 0%N (map (fun p => fst p * snd p)%N (combine ws ds)).

(** Modelled from the spec: the check digit of section 4.5, [0] when the
    weighted sum modulo 11 is below 2 and 11 minus it otherwise. *)
Definition check_digit (ws ds : list N) : N :=
  let s := (weighted_sum ws ds mod 11)%N in
  if (s <? 2)%N then 0%N else (11 - s)%N.

(** Modelled from the spec: a tax identifier of [total] digits is valid when
    its last two digits are the check digits of the prefixes before them. *)
Definition validate_taxid (total : nat) (weights : nat -> list N)
    (param : pyval) : result pyval :=
  let d := digits_of (py_str param) in
  let first := total - 2 in
  let second := total - 1 in
  if negb (length d =? total) then Ok (PyBool false)
  else
    Ok (PyBool
          (N.eqb (check_digit (weights first) (firstn first d))
                 (nth first d 0%N)
           && N.eqb (check_digit (weights second) (firstn second d))
                    (nth second d 0%N))).

(** Modelled from the spec: brazilnum's [validate_cpf], the TaxId11 rule of
    sections 4.2 and 4.5. *)
Definition validate_cpf : pyval -> result pyval :=
  validate_taxid 11 weights_descending.

(** Modelled from the spec: brazilnum's [validate_cnpj], the TaxId14 rule of
    section 4.2, with the weights that cycle through 2..9. *)
Definition validate_cnpj : pyval -> result pyval :=
  validate_taxid 14 weights_cycling.

(** The 14-digit rule as the sentence of section 4.5 words it: the weights of
    the 11-digit rule, descending from [n + 1] to [2], over 12 and 13
    digits. *)
Definition taxid14_with_descending_weights : pyval -> result pyval :=
  validate_taxid 14 weights_descending.

(** ** Notions the statements use *)

(** The language of a pattern: what it means for the whole of a text to
    match it. *)
Inductive Matches : regex -> str -> Prop :=
| MEps : Matches Eps []
| MDot c : dot_matches c = true -> Matches Dot [c]
| MClass rs c : in_ranges rs c = true -> Matches (Class rs) [c]
| MCat r1 r2 s1 s2 :
    Matches r1 s1 -> Matches r2 s2 -> Matches (Cat r1 r2) (s1 ++ s2)
| MAltL r1 r2 s : Matches r1 s -> Matches (Alt r1 r2) s
| MAltR r1 r2 s : Matches r2 s -> Matches (Alt r1 r2) s
| MStar0 r : Matches (Star r) []
| MStarS r s1 s2 :
    Matches r s1 -> Matches (Star r) s2 -> Matches (Star r) (s1 ++ s2).

(** The ASCII classes the patterns name. *)
Definition ascii_digit (c : char) : Prop := (48 <= c <= 57)%N.
Definition ascii_upper (c : char) : Prop := (65 <= c <= 90)%N.
Definition ascii_lower (c : char) : Prop := (97 <= c <= 122)%N.
Definition ascii_letter (c : char) : Prop := ascii_upper c \/ ascii_lower c.
Definition newline : char := 10%N.

(** The check digit for a weighted sum already reduced modulo 11. *)
Definition digit_for (s : N) : N := if (s <? 2)%N then 0%N else (11 - s)%N.

(** [r] is [s] with some characters left out, the others in their order. *)
Inductive subseq : str -> str -> Prop :=
| subseq_nil : subseq [] []
| subseq_keep c r s : subseq r s -> subseq (c :: r) (c :: s)
| subseq_drop c r s : subseq r s -> subseq r (c :: s).

(** The text [Normaliser.inp] and [Normaliser.outp] start from: the empty
    string for a value that is not true, [str] of it otherwise. *)
Definition text_of (v : pyval) : str :=
  py_str (if negb (truthy v) then PyStr [] else v).

(** The classes whose [_outp] applies a template at fixed lengths, and the
    lengths. *)
Definition fixed_length_variants : list normaliser :=
  [PhoneNormaliser; MobNormaliser; PostCodeNormaliser; PassportNormaliser;
   IDCardNormaliser; CpfNormaliser; CnpjNormaliser].

Definition display_lengths (n : normaliser) : list nat :=
  match n with
  | PhoneNormaliser | MobNormaliser => [10; 11]
  | PostCodeNormaliser | PassportNormaliser => [8]
  | IDCardNormaliser => [9]
  | CpfNormaliser => [11]
  | CnpjNormaliser => [14]
  | _ => []
  end.

Section Notions.

Context {U : unicode_database}.

Definition str_eqb (a b : str) : bool :=
  if list_eq_dec N.eq_dec a b then true else false.

(** Upper-casing [c] gives alphanumeric characters that upper-casing leaves
    alone. *)
Definition upper_stable (c : char) : bool :=
  forallb (fun u => str_isalnum u && str_eqb (upper_char u) [u])
    (upper_char c).

(** [u] is alphanumeric and its own upper case. *)
Definition upper_fixed (u : char) : Prop :=
  str_isalnum u = true /\ upper_char u = [u].

(** The text a passport number is made of upper-cases within the
    alphanumeric characters. *)
Definition upper_closed (s : str) : Prop :=
  forall c, In c s -> str_isalnum c = true -> upper_stable c = true.

(** What [inp] stores for a text, class by class. *)
Definition keeps (a : attrs) (c : char) : bool :=
  negb (existsb (N.eqb c) (remove a)).

Definition strips (a : attrs) (s : str) : str :=
  let s := if strip a then str_strip s else s in
  let s := if lstrip a then str_lstrip s else s in
  if rstrip a then str_rstrip s else s.

Definition stored (n : normaliser) (s : str) : str :=
  match n with
  | NullNormaliser | DateNormaliser _ _ => s
  | Normaliser a => strips a (filter (keeps a) s)
  | AlphaNormaliser => filter str_isalpha s
  | AlnumNormaliser => filter str_isalnum s
  | PassportNormaliser => str_upper (filter str_isalnum s)
  | _ => filter str_isdigit s
  end.

(** What [_outp] displays for a stored text, class by class. *)
Definition displayed (n : normaliser) (t : str) : str :=
  match n with
  | PhoneNormaliser | MobNormaliser =>
      if existsb (Nat.eqb (length t)) [10; 11] then
        lit "(" ++ slice 0 2 t ++ lit ") " ++ slice 2 6 t ++ lit " "
          ++ slice_from 6 t
      else t
  | PassportNormaliser =>
      if length t =? 8 then
        slice 0 2 t ++ lit " " ++ slice 2 5 t ++ lit " " ++ slice 5 8 t
      else t
  | IDCardNormaliser =>
      if length t =? 9 then
        slice 0 4 t ++ lit "." ++ slice 4 8 t ++ lit "-" ++ slice 8 9 t
      else t
  | PostCodeNormaliser =>
      if length t =? 8 then slice 0 5 t ++ lit "-" ++ slice 5 8 t else t
  | CpfNormaliser =>
      if length t =? 11 then
        slice 0 3 t ++ lit "." ++ slice 3 6 t ++ lit "." ++ slice 6 9 t
          ++ lit "-" ++ slice 9 11 t
      else t
  | CnpjNormaliser =>
      if length t =? 14 then
        slice 0 2 t ++ lit "." ++ slice 2 5 t ++ lit "." ++ slice 5 8 t
          ++ lit "/" ++ slice 8 12 t ++ lit "-" ++ slice 12 14 t
      else t
  | _ => t
  end.

(** The head of a text is no white space, and the same of its end. *)
Definition lclean (s : str) : Prop :=
  match s with
  | [] => True
  | c :: _ => str_isspace c = false
  end.

Definition rclean (s : str) : Prop := lclean (rev s).

End Notions.

(** ** The checksum routine of the source and the form of the view *)

(** [range(start, stop, -1)]. *)
Definition range_down (start stop : nat) : list N :=
  map (fun i => N.of_nat (start - i)) (seq 0 (start - stop)).

(** [int(v)] for a one-character string of the blocks written out above:
    the value of a digit 0-9, and [ValueError] for any other character,
    the superscripts among them. *)
Definition int_table (v : char) : option N :=
  if is_ascii_digit v then Some (v - 48)%N else None.

Section CheckCpf.

Context {U : unicode_database}.

(** What [int] answers for a one-character string, [None] standing for
    [ValueError]. *)
Variable int_of : char -> option N.

(** [sum(b * int(v) for b, v in zip(bs, partial))]. *)
Fixpoint weighted (bs : list N) (partial : str) : option N :=
  match bs, partial with
  | b :: bs', v :: rest =>
      match int_of v with
      | None => None
      | Some d =>
          match weighted bs' rest with
          | None => None
          | Some s => Some (b * d + s)%N
          end
      end
  | _, _ => Some 0%N
  end.

(** The inner function [dv] of [_check_cpf]. *)
Definition dv (partial : str) : option N :=
  match weighted (range_down (length partial + 1) 1) partial with
  | None => None
  | Some s => Some (s mod 11)%N
  end.

(** [_check_cpf]: whatever is raised inside is caught and answered [None],
    and [and] asks for [int(cpf[10])] only when the first digit agrees. *)
Definition _check_cpf (cpf : pyval) : pyval :=
  match _remove_non_digit_chars cpf with
  | PyStr cpf =>
      if negb (length cpf =? 11) then PyNone
      else
        match dv (slice 0 9 cpf) with
        | None => PyNone
        | Some q1 =>
            let dv1 := (11 - q1)%N in
            match dv (slice 0 10 cpf) with
            | None => PyNone
            | Some q2 =>
                let dv2 := if (2 <=? q2)%N then (11 - q2)%N else 0%N in
                match int_of (nth 9 cpf 0%N) with
                | None => PyNone
                | Some d9 =>
                    if (dv1 =? d9)%N then
                      match int_of (nth 10 cpf 0%N) with
                      | None => PyNone
                      | Some d10 => PyBool (dv2 =? d10)%N
                      end
                    else PyBool false
                end
            end
        end
  | _ => PyNone
  end.



End CheckCpf.

(** * Results *)

(** ** The matcher decides the language of the pattern *)

Section Matching.

Lemma Matches_Empty s : ~ Matches Empty s.
Proof. intro H; inversion H. Qed.

Lemma Matches_Eps s : Matches Eps s <-> s = [].
Proof.
  split; intro H.
  - now inversion H.
  - subst; constructor.
Qed.

Lemma Matches_Cat r1 r2 s :
  Matches (Cat r1 r2) s <->
  exists s1 s2, s = s1 ++ s2 /\ Matches r1 s1 /\ Matches r2 s2.
Proof.
  split.
  - intro H; inversion H; subst; eauto.
  - intros (s1 & s2 & -> & H1 & H2); now constructor.
Qed.

Lemma Matches_Alt r1 r2 s :
  Matches (Alt r1 r2) s <-> Matches r1 s \/ Matches r2 s.
Proof.
  split.
  - intro H; inversion H; subst; auto.
  - intros [H | H]; [now apply MAltL | now apply MAltR].
Qed.

Lemma nullable_Matches r : nullable r = true <-> Matches r [].
Proof.
  induction r; simpl.
  - split; [discriminate | intro H; inversion H].
  - split; [constructor | reflexivity].
  - split; [discriminate | intro H; inversion H].
  - split; [discriminate | intro H; inversion H].
  - rewrite andb_true_iff, IHr1, IHr2, Matches_Cat; split.
    + intros [H1 H2]; exists [], []; auto.
    + intros (s1 & s2 & E & H1 & H2).
      symmetry in E; apply app_eq_nil in E as [-> ->]; auto.
  - now rewrite orb_true_iff, IHr1, IHr2, Matches_Alt.
  - split; [constructor | reflexivity].
Qed.

(** A match of [Star r] that starts with [c] starts with a match of [r] that
    does. *)
Lemma Matches_Star_cons r c s :
  Matches (Star r) (c :: s) ->
  exists s1 s2, s = s1 ++ s2 /\ Matches r (c :: s1) /\ Matches (Star r) s2.
Proof.
  intro H.
  remember (Star r) as q eqn:Eq; remember (c :: s) as w eqn:Ew.
  revert s Ew; induction H; intros s' Ew; try discriminate.
  injection Eq as ->.
  destruct s1 as [| c1 s1]; simpl in Ew.
  - now apply IHMatches2.
  - injection Ew as -> <-; eauto.
Qed.

Lemma deriv_Matches c r : forall s, Matches (deriv c r) s <-> Matches r (c :: s).
Proof.
  induction r; intro s; simpl.
  - split; intro H; inversion H.
  - split; intro H; inversion H.
  - destruct (dot_matches c) eqn:E; split; intro H.
    + apply Matches_Eps in H as ->; now constructor.
    + inversion H; subst; constructor.
    + inversion H.
    + inversion H; subst; congruence.
  - destruct (in_ranges ranges c) eqn:E; split; intro H.
    + apply Matches_Eps in H as ->; now constructor.
    + inversion H; subst; constructor.
    + inversion H.
    + inversion H; subst; congruence.
  - destruct (nullable r1) eqn:N.
    + rewrite Matches_Alt, !Matches_Cat; split.
      * intros [(s1 & s2 & -> & H1 & H2) | H].
        -- exists (c :: s1), s2; rewrite <- IHr1; auto.
        -- exists [], (c :: s); rewrite <- IHr2, <- nullable_Matches; auto.
      * intros (s1 & s2 & E & H1 & H2).
        destruct s1 as [| c1 s1]; simpl in E.
        -- right; subst s2; now apply IHr2.
        -- injection E as <- ->; left; exists s1, s2; rewrite IHr1; auto.
    + rewrite !Matches_Cat; split.
      * intros (s1 & s2 & -> & H1 & H2).
        exists (c :: s1), s2; rewrite <- IHr1; auto.
      * intros (s1 & s2 & E & H1 & H2).
        destruct s1 as [| c1 s1]; simpl in E.
        -- apply nullable_Matches in H1; congruence.
        -- injection E as <- ->; exists s1, s2; rewrite IHr1; auto.
  - now rewrite !Matches_Alt, IHr1, IHr2.
  - rewrite Matches_Cat; split.
    + intros (s1 & s2 & -> & H1 & H2).
      apply IHr in H1; now apply (MStarS _ _ _ H1 H2).
    + intro H; apply Matches_Star_cons in H as (s1 & s2 & -> & H1 & H2).
      exists s1, s2; rewrite IHr; auto.
Qed.

Lemma matches_Matches s : forall r, matches r s = true <-> Matches r s.
Proof.
  induction s as [| c s IH]; intro r; simpl.
  - apply nullable_Matches.
  - now rewrite IH, deriv_Matches.
Qed.

End Matching.

(** ** The languages of the validators' patterns *)

Section OneCharacter.

(** [r] matches the one-character texts whose character satisfies [p]. *)
Variable r : regex.
Variable p : char -> bool.
Hypothesis single : forall s, Matches r s <-> exists c, s = [c] /\ p c = true.

Lemma Matches_power k : forall s,
  Matches (power r k) s <-> length s = k /\ forallb p s = true.
Proof.
  induction k as [| k IH]; intro s; simpl.
  - rewrite Matches_Eps; split.
    + intros ->; auto.
    + intros [H _]; now apply length_zero_iff_nil.
  - rewrite Matches_Cat; split.
    + intros (s1 & s2 & -> & H1 & H2).
      apply single in H1 as (c & -> & Hc); apply IH in H2 as [<- H2].
      simpl; now rewrite Hc, H2.
    + intros [L H]; destruct s as [| c s]; [discriminate |].
      simpl in *; apply andb_true_iff in H as [Hc H].
      exists [c], s; repeat split.
      * apply single; eauto.
      * apply IH; auto.
Qed.

Lemma Matches_upto k : forall s,
  Matches (upto r k) s <-> length s <= k /\ forallb p s = true.
Proof.
  induction k as [| k IH]; intro s; simpl.
  - rewrite Matches_Eps; split.
    + intros ->; auto.
    + intros [H _]; apply length_zero_iff_nil; lia.
  - rewrite Matches_Alt, Matches_Eps, Matches_Cat; split.
    + intros [-> | (s1 & s2 & -> & H1 & H2)].
      * simpl; split; [lia | reflexivity].
      * apply single in H1 as (c & -> & Hc); apply IH in H2 as [L H2].
        simpl; rewrite Hc, H2; split; [lia | reflexivity].
    + intros [L H]; destruct s as [| c s]; [now left | right].
      simpl in *; apply andb_true_iff in H as [Hc H].
      exists [c], s; repeat split.
      * apply single; eauto.
      * apply IH; split; [lia | auto].
Qed.

Lemma Matches_rep m n s :
  m <= n ->
  Matches (rep r m n) s <-> (m <= length s <= n) /\ forallb p s = true.
Proof.
  intro Hmn; unfold rep; rewrite Matches_Cat; split.
  - intros (s1 & s2 & -> & H1 & H2).
    apply Matches_power in H1 as [L1 H1]; apply Matches_upto in H2 as [L2 H2].
    rewrite length_app, forallb_app, H1, H2; split; [lia | reflexivity].
  - intros [L H].
    rewrite <- (firstn_skipn m s) in H |- *.
    rewrite forallb_app in H; apply andb_true_iff in H as [H1 H2].
    exists (firstn m s), (skipn m s); repeat split.
    + apply Matches_power; split; [rewrite length_firstn; lia | auto].
    + apply Matches_upto; split; [rewrite length_skipn; lia | auto].
Qed.

Lemma Matches_Star_single s : Matches (Star r) s <-> forallb p s = true.
Proof.
  split.
  - intro H; remember (Star r) as q eqn:Eq.
    induction H; try discriminate; [reflexivity |].
    injection Eq as ->.
    apply single in H as (c & -> & Hc); simpl.
    now rewrite Hc, IHMatches2.
  - induction s as [| c s IH]; simpl; intro H; [constructor |].
    apply andb_true_iff in H as [Hc H].
    apply (@MStarS r [c] s); [apply single; eauto | auto].
Qed.

End OneCharacter.

Lemma Matches_Class rs s :
  Matches (Class rs) s <-> exists c, s = [c] /\ in_ranges rs c = true.
Proof.
  split.
  - intro H; inversion H; subst; eauto.
  - intros (c & -> & H); now constructor.
Qed.

Lemma Matches_Dot s :
  Matches Dot s <-> exists c, s = [c] /\ dot_matches c = true.
Proof.
  split.
  - intro H; inversion H; subst; eauto.
  - intros (c & -> & H); now constructor.
Qed.

Lemma Matches_rep_Class rs m n s :
  m <= n ->
  Matches (rep (Class rs) m n) s <->
  (m <= length s <= n) /\ forallb (in_ranges rs) s = true.
Proof. apply (@Matches_rep (Class rs) (in_ranges rs) (@Matches_Class rs)). Qed.

Lemma Matches_Star_Dot s :
  Matches (Star Dot) s <-> forallb dot_matches s = true.
Proof. apply (@Matches_Star_single Dot dot_matches Matches_Dot). Qed.

Lemma Matches_Cat_Eps r s : Matches (Cat r Eps) s <-> Matches r s.
Proof.
  rewrite Matches_Cat; split.
  - intros (s1 & s2 & -> & H1 & H2).
    apply Matches_Eps in H2 as ->; now rewrite app_nil_r.
  - intro H; exists s, []; rewrite app_nil_r; repeat split; auto; constructor.
Qed.

Lemma forallb_digits s :
  forallb (in_ranges [(48, 57)]%N) s = true <-> Forall ascii_digit s.
Proof.
  rewrite forallb_forall, Forall_forall.
  unfold in_ranges, in_range, ascii_digit; simpl.
  split; intros H c Hc; specialize (H c Hc).
  - rewrite orb_false_r in H; apply andb_true_iff in H as [H1 H2].
    apply N.leb_le in H1, H2; auto.
  - rewrite orb_false_r; apply andb_true_iff; split; apply N.leb_le; tauto.
Qed.

Lemma forallb_uppers s :
  forallb (in_ranges [(65, 90)]%N) s = true <-> Forall ascii_upper s.
Proof.
  rewrite forallb_forall, Forall_forall.
  unfold in_ranges, in_range, ascii_upper; simpl.
  split; intros H c Hc; specialize (H c Hc).
  - rewrite orb_false_r in H; apply andb_true_iff in H as [H1 H2].
    apply N.leb_le in H1, H2; auto.
  - rewrite orb_false_r; apply andb_true_iff; split; apply N.leb_le; tauto.
Qed.

(** A validator with a pattern that compiles answers, for every text, the
    boolean that says whether the whole text is in the pattern's language. *)
Lemma RegexValidator_compiled pattern r s :
  re_compile pattern = Some r ->
  RegexValidator pattern (PyStr s) = Ok (PyBool (matches r s)).
Proof.
  intro H; unfold RegexValidator, re_fullmatch; rewrite H; simpl.
  now destruct (matches r s).
Qed.

Lemma RegexValidator_language pattern r s :
  re_compile pattern = Some r ->
  (exists b, RegexValidator pattern (PyStr s) = Ok (PyBool b))
  /\ (RegexValidator pattern (PyStr s) = Ok (PyBool true) <-> Matches r s).
Proof.
  intro H; rewrite (@RegexValidator_compiled pattern r s H); split; [eauto |].
  rewrite <- matches_Matches; split; [congruence | now intros ->].
Qed.

(** X2: [PhoneValidator] passes the texts of ten or eleven digits 0-9 and no
    other. *)
Theorem PhoneValidator_language s :
  PhoneValidator (PyStr s) = Ok (PyBool true) <->
  (length s = 10 \/ length s = 11) /\ Forall ascii_digit s.
Proof.
  unfold PhoneValidator.
  rewrite (proj2 (@RegexValidator_language (lit "[0-9]{10,11}")
                    (Cat (rep (Class [(48, 57)]%N) 10 11) Eps) s eq_refl)).
  rewrite Matches_Cat_Eps, Matches_rep_Class, forallb_digits
    by lia.
  intuition lia.
Qed.

(** X4: [IDCardValidator] passes the texts of nine digits 0-9 and no
    other. *)
Theorem IDCardValidator_language s :
  IDCardValidator (PyStr s) = Ok (PyBool true) <->
  length s = 9 /\ Forall ascii_digit s.
Proof.
  unfold IDCardValidator.
  rewrite (proj2 (@RegexValidator_language (lit "[0-9]{9}")
                    (Cat (rep (Class [(48, 57)]%N) 9 9) Eps) s eq_refl)).
  rewrite Matches_Cat_Eps, Matches_rep_Class, forallb_digits
    by lia.
  intuition lia.
Qed.

(** X5: [PostCodeValidator] passes the texts of eight digits 0-9 and no
    other. *)
Theorem PostCodeValidator_language s :
  PostCodeValidator (PyStr s) = Ok (PyBool true) <->
  length s = 8 /\ Forall ascii_digit s.
Proof.
  unfold PostCodeValidator.
  rewrite (proj2 (@RegexValidator_language (lit "[0-9]{8}")
                    (Cat (rep (Class [(48, 57)]%N) 8 8) Eps) s eq_refl)).
  rewrite Matches_Cat_Eps, Matches_rep_Class, forallb_digits
    by lia.
  intuition lia.
Qed.

(** X3: [PassportValidator] passes the texts of two letters A-Z followed by
    six digits 0-9 and no other. *)
Theorem PassportValidator_language s :
  PassportValidator (PyStr s) = Ok (PyBool true) <->
  exists a b, s = a ++ b /\ length a = 2 /\ Forall ascii_upper a
              /\ length b = 6 /\ Forall ascii_digit b.
Proof.
  unfold PassportValidator.
  rewrite (proj2 (@RegexValidator_language (lit "[A-Z]{2}[0-9]{6}")
                    (Cat (rep (Class [(65, 90)]%N) 2 2)
                       (Cat (rep (Class [(48, 57)]%N) 6 6) Eps)) s eq_refl)).
  rewrite Matches_Cat; split.
  - intros (a & b & -> & Ha & Hb); exists a, b.
    rewrite Matches_Cat_Eps in Hb.
    rewrite Matches_rep_Class in Ha, Hb by lia.
    rewrite forallb_uppers in Ha; rewrite forallb_digits in Hb.
    intuition lia.
  - intros (a & b & -> & La & Ha & Lb & Hb); exists a, b.
    rewrite Matches_Cat_Eps, !Matches_rep_Class by lia.
    rewrite forallb_uppers, forallb_digits; intuition lia.
Qed.

Lemma forallb_letters s :
  forallb (in_ranges [(97, 122); (65, 90)]%N) s = true
  <-> Forall ascii_letter s.
Proof.
  rewrite forallb_forall, Forall_forall.
  unfold in_ranges, in_range, ascii_letter, ascii_upper, ascii_lower; simpl.
  split; intros H c Hc; specialize (H c Hc).
  - rewrite orb_false_r, orb_true_iff, !andb_true_iff, !N.leb_le in H; tauto.
  - rewrite orb_false_r, orb_true_iff, !andb_true_iff, !N.leb_le; tauto.
Qed.

Lemma forallb_alnums s :
  forallb (in_ranges [(97, 122); (65, 90); (48, 57)]%N) s = true
  <-> Forall (fun c => ascii_letter c \/ ascii_digit c) s.
Proof.
  rewrite forallb_forall, Forall_forall.
  unfold in_ranges, in_range, ascii_letter, ascii_upper, ascii_lower,
    ascii_digit; simpl.
  split; intros H c Hc; specialize (H c Hc).
  - rewrite orb_false_r, !orb_true_iff, !andb_true_iff, !N.leb_le in H; tauto.
  - rewrite orb_false_r, !orb_true_iff, !andb_true_iff, !N.leb_le; tauto.
Qed.

Lemma Matches_Star_Class rs s :
  Matches (Star (Class rs)) s <-> forallb (in_ranges rs) s = true.
Proof.
  apply (Matches_Star_single (Class rs) (in_ranges rs) (Matches_Class rs)).
Qed.

(** X1: for a pattern that compiles, [RegexValidator] returns a boolean, and
    [True] exactly for the texts that are in the pattern's language as a
    whole: a text with more before or after a match is not. *)
Theorem RegexValidator_matches_whole_text pattern r s :
  re_compile pattern = Some r ->
  (exists b, RegexValidator pattern (PyStr s) = Ok (PyBool b))
  /\ (RegexValidator pattern (PyStr s) = Ok (PyBool true) <-> Matches r s).
Proof. apply RegexValidator_language. Qed.

Lemma RegexValidator_matches_whole_text_witness :
  re_compile (lit "[a-z][0-9][A-C]")
  = Some (Cat (Class [(97, 122)]%N)
            (Cat (Class [(48, 57)]%N) (Cat (Class [(65, 67)]%N) Eps)))
  /\ (exists b,
        RegexValidator (lit "[a-z][0-9][A-C]") (PyStr (lit "b5C "))
        = Ok (PyBool b))
  /\ (RegexValidator (lit "[a-z][0-9][A-C]") (PyStr (lit "b5C "))
      = Ok (PyBool true)
      <-> Matches (Cat (Class [(97, 122)]%N)
                     (Cat (Class [(48, 57)]%N) (Cat (Class [(65, 67)]%N) Eps)))
            (lit "b5C ")).
Proof.
  split; [reflexivity |].
  apply (RegexValidator_matches_whole_text (lit "[a-z][0-9][A-C]")).
  reflexivity.
Defined.

(** The validator of the tests, which a text with a blank before or after
    the match does not pass. *)
Lemma RegexValidator_examples :
  RegexValidator (RegexValidator_init RegexValidator_regex
                    (Some (lit "[a-z][0-9][A-C]"))) (PyStr (lit "b5C"))
    = Ok (PyBool true)
  /\ RegexValidator (lit "[a-z][0-9][A-C]") (PyStr (lit "b5C "))
     = Ok (PyBool false)
  /\ RegexValidator (lit "[a-z][0-9][A-C]") (PyStr (lit " b5C"))
     = Ok (PyBool false)
  /\ RegexValidator (lit "[a-z][0-9][A-C]") (PyStr []) = Ok (PyBool false)
  /\ IDCardValidator (PyStr (lit "1234567890")) = Ok (PyBool false)
  /\ PhoneValidator (PyStr (lit "1234567890a")) = Ok (PyBool false)
  /\ PassportValidator (PyStr (lit "aa-123456")) = Ok (PyBool false)
  /\ PassportValidator PyNone = Raise TypeError.
Proof. repeat split; reflexivity. Qed.

(** X6: [NumericValidator], [AlphaValidator] and [AlnumValidator] pass the
    texts,
    the empty one among them, made of 0-9, of A-Z and a-z, and of both. *)
Theorem NumericValidator_language s :
  (NumericValidator (PyStr s) = Ok (PyBool true) <-> Forall ascii_digit s)
  /\ (AlphaValidator (PyStr s) = Ok (PyBool true) <-> Forall ascii_letter s)
  /\ (AlnumValidator (PyStr s) = Ok (PyBool true)
      <-> Forall (fun c => ascii_letter c \/ ascii_digit c) s).
Proof.
  unfold NumericValidator, AlphaValidator, AlnumValidator.
  rewrite (proj2 (RegexValidator_language (lit "[0-9]*")
                    (Cat (Star (Class [(48, 57)]%N)) Eps) s eq_refl)).
  rewrite (proj2 (RegexValidator_language (lit "[a-zA-Z]*")
                    (Cat (Star (Class [(97, 122); (65, 90)]%N)) Eps) s
                    eq_refl)).
  rewrite (proj2 (RegexValidator_language (lit "[a-zA-Z0-9]*")
                    (Cat (Star (Class [(97, 122); (65, 90); (48, 57)]%N)) Eps)
                    s eq_refl)).
  rewrite !Matches_Cat_Eps, !Matches_Star_Class.
  rewrite forallb_digits, forallb_letters, forallb_alnums; tauto.
Qed.

(** X7: the pattern a [RegexValidator] has when it is given none matches the
    texts without a newline, and only them. *)
Theorem RegexValidator_default_language s :
  RegexValidator (RegexValidator_init RegexValidator_regex None) (PyStr s)
    = Ok (PyBool true)
  <-> ~ In newline s.
Proof.
  rewrite (proj2 (@RegexValidator_language (lit ".*") (Cat (Star Dot) Eps) s eq_refl)).
  rewrite Matches_Cat_Eps, Matches_Star_Dot, forallb_forall.
  unfold dot_matches, newline; split.
  - intros H Hin; specialize (H _ Hin); discriminate.
  - intros H c Hc; destruct (N.eqb_spec c 10); [subst; tauto | reflexivity].
Qed.

(** C7, at the input where the code leaves it: with the pattern of the class,
    [RegexValidator] answers [False] for the text that is one newline, which
    [.] does not match. *)
Theorem RegexValidator_default_rejects_newline :
  RegexValidator (RegexValidator_init RegexValidator_regex None)
    (PyStr [newline]) = Ok (PyBool false)
  /\ RegexValidator (RegexValidator_init RegexValidator_regex None)
       (PyStr (lit "a" ++ [newline] ++ lit "b")) = Ok (PyBool false)
  /\ RegexValidator (RegexValidator_init RegexValidator_regex None)
       (PyStr []) = Ok (PyBool true).
Proof. repeat split; reflexivity. Qed.

(** ** The date of birth *)

Lemma date_lt_irrefl d : date_lt d d = false.
Proof.
  unfold date_lt; now rewrite !N.ltb_irrefl, !N.eqb_refl.
Qed.

(** C9, at the input where the code leaves it: for the date that is today,
    [DobValidator] returns [None]; no date makes it return [False], and it
    returns [True] for the dates before today and no other. *)
Theorem DobValidator_returns_None today :
  DobValidator today (PyDate today) = Ok PyNone
  /\ (forall d, DobValidator today (PyDate d) <> Ok (PyBool false))
  /\ (forall d, DobValidator today (PyDate d) = Ok (PyBool true)
                <-> date_lt d today = true).
Proof.
  unfold DobValidator; rewrite date_lt_irrefl; repeat split.
  - intro d; destruct (date_lt d today); discriminate.
  - destruct (date_lt d today); [reflexivity | discriminate].
  - now intros ->.
Qed.

(** ** The tax identifiers *)

Lemma CpfValidator_not_true validate param :
  truthy param = false -> CpfValidator validate param = Ok (PyBool false).
Proof. intro H; unfold CpfValidator; now rewrite H. Qed.

Lemma CnpjValidator_not_true validate param :
  truthy param = false -> CnpjValidator validate param = Ok (PyBool false).
Proof. intro H; unfold CnpjValidator; now rewrite H. Qed.

Lemma digits_of_nonempty s : digits_of s <> [] -> truthy (PyStr s) = true.
Proof. destruct s; [intro H; now elim H | reflexivity]. Qed.

Lemma validate_taxid_length total weights s :
  length (digits_of s) <> total ->
  validate_taxid total weights (PyStr s) = Ok (PyBool false).
Proof.
  intro H; unfold validate_taxid; simpl.
  now destruct (Nat.eqb_spec (length (digits_of s)) total).
Qed.

Lemma CpfValidator_length s :
  length (digits_of s) <> 11 ->
  CpfValidator validate_cpf (PyStr s) = Ok (PyBool false).
Proof.
  intro H; unfold CpfValidator, validate_cpf.
  rewrite (validate_taxid_length _ _ _ H); now destruct (truthy (PyStr s)).
Qed.

Lemma CpfValidator_digits s d0 d1 d2 d3 d4 d5 d6 d7 d8 d9 d10 :
  digits_of s = [d0; d1; d2; d3; d4; d5; d6; d7; d8; d9; d10] ->
  CpfValidator validate_cpf (PyStr s)
  = Ok (PyBool
          (N.eqb (digit_for ((10 * d0 + 9 * d1 + 8 * d2 + 7 * d3 + 6 * d4
                              + 5 * d5 + 4 * d6 + 3 * d7 + 2 * d8) mod 11))
                 d9
           && N.eqb (digit_for ((11 * d0 + 10 * d1 + 9 * d2 + 8 * d3 + 7 * d4
                                 + 6 * d5 + 5 * d6 + 4 * d7 + 3 * d8 + 2 * d9)
                                mod 11))
                    d10))%N.
Proof.
  intro H; unfold CpfValidator.
  rewrite digits_of_nonempty by (rewrite H; discriminate).
  unfold validate_cpf, validate_taxid; simpl py_str; rewrite H.
  cbn -[N.modulo N.mul N.add N.eqb N.ltb N.sub].
  unfold check_digit, digit_for, weighted_sum.
  cbn -[N.modulo N.mul N.add N.eqb N.ltb N.sub].
  replace (10 * d0 + (9 * d1 + (8 * d2 + (7 * d3 + (6 * d4 + (5 * d5
            + (4 * d6 + (3 * d7 + (2 * d8 + 0)))))))))%N
    with (10 * d0 + 9 * d1 + 8 * d2 + 7 * d3 + 6 * d4 + 5 * d5 + 4 * d6
          + 3 * d7 + 2 * d8)%N by lia.
  replace (11 * d0 + (10 * d1 + (9 * d2 + (8 * d3 + (7 * d4 + (6 * d5
            + (5 * d6 + (4 * d7 + (3 * d8 + (2 * d9 + 0))))))))))%N
    with (11 * d0 + 10 * d1 + 9 * d2 + 8 * d3 + 7 * d4 + 6 * d5 + 5 * d6
          + 4 * d7 + 3 * d8 + 2 * d9)%N by lia.
  now destruct (_ && _).
Qed.

(** C1 (TaxId11): [CpfValidator], over the rule of the spec for brazilnum's
    [validate_cpf], answers [False] for every input that is not true; for a
    text it strips what is no digit, answers [False] unless eleven digits are
    left, and then answers whether the tenth and the eleventh digit are the
    check digits of the nine and of the ten digits before them, the weights
    descending to 2 and the check digit being 0 when the sum modulo 11 is
    below 2 and 11 minus it otherwise.  The five identifiers of the spec
    validate as it says. *)
Theorem CpfValidator_TaxId11 :
  (forall param, truthy param = false ->
     CpfValidator validate_cpf param = Ok (PyBool false))
  /\ (forall s, length (digits_of s) <> 11 ->
        CpfValidator validate_cpf (PyStr s) = Ok (PyBool false))
  /\ (forall s d0 d1 d2 d3 d4 d5 d6 d7 d8 d9 d10,
        digits_of s = [d0; d1; d2; d3; d4; d5; d6; d7; d8; d9; d10] ->
        CpfValidator validate_cpf (PyStr s)
        = Ok (PyBool
                (N.eqb (digit_for ((10 * d0 + 9 * d1 + 8 * d2 + 7 * d3
                                    + 6 * d4 + 5 * d5 + 4 * d6 + 3 * d7
                                    + 2 * d8) mod 11)) d9
                 && N.eqb (digit_for ((11 * d0 + 10 * d1 + 9 * d2 + 8 * d3
                                       + 7 * d4 + 6 * d5 + 5 * d6 + 4 * d7
                                       + 3 * d8 + 2 * d9) mod 11)) d10))%N)
  /\ CpfValidator validate_cpf (PyStr (lit "70600399109")) = Ok (PyBool true)
  /\ CpfValidator validate_cpf (PyStr (lit "697.200.105-68"))
     = Ok (PyBool true)
  /\ CpfValidator validate_cpf (PyStr (lit "00000128156")) = Ok (PyBool false)
  /\ CpfValidator validate_cpf (PyStr (lit "")) = Ok (PyBool false)
  /\ CpfValidator validate_cpf PyNone = Ok (PyBool false).
Proof.
  split; [exact (@CpfValidator_not_true validate_cpf) |].
  split; [exact CpfValidator_length |].
  split; [exact CpfValidator_digits |].
  repeat split; reflexivity.
Qed.

Lemma CnpjValidator_length s :
  length (digits_of s) <> 14 ->
  CnpjValidator validate_cnpj (PyStr s) = Ok (PyBool false).
Proof.
  intro H; unfold CnpjValidator, validate_cnpj.
  rewrite (validate_taxid_length _ _ _ H); now destruct (truthy (PyStr s)).
Qed.

Lemma CnpjValidator_digits s d0 d1 d2 d3 d4 d5 d6 d7 d8 d9 d10 d11 d12 d13 :
  digits_of s = [d0; d1; d2; d3; d4; d5; d6; d7; d8; d9; d10; d11; d12; d13] ->
  CnpjValidator validate_cnpj (PyStr s)
  = Ok (PyBool
          (N.eqb (digit_for ((5 * d0 + 4 * d1 + 3 * d2 + 2 * d3 + 9 * d4
                              + 8 * d5 + 7 * d6 + 6 * d7 + 5 * d8 + 4 * d9
                              + 3 * d10 + 2 * d11) mod 11)) d12
           && N.eqb (digit_for ((6 * d0 + 5 * d1 + 4 * d2 + 3 * d3 + 2 * d4
                                 + 9 * d5 + 8 * d6 + 7 * d7 + 6 * d8 + 5 * d9
                                 + 4 * d10 + 3 * d11 + 2 * d12) mod 11))
                    d13))%N.
Proof.
  intro H; unfold CnpjValidator.
  rewrite digits_of_nonempty by (rewrite H; discriminate).
  unfold validate_cnpj, validate_taxid; simpl py_str; rewrite H.
  cbn -[N.modulo N.mul N.add N.eqb N.ltb N.sub].
  unfold check_digit, digit_for, weighted_sum.
  cbn -[N.modulo N.mul N.add N.eqb N.ltb N.sub].
  replace (5 * d0 + (4 * d1 + (3 * d2 + (2 * d3 + (9 * d4 + (8 * d5
            + (7 * d6 + (6 * d7 + (5 * d8 + (4 * d9 + (3 * d10
            + (2 * d11 + 0))))))))))))%N
    with (5 * d0 + 4 * d1 + 3 * d2 + 2 * d3 + 9 * d4 + 8 * d5 + 7 * d6
          + 6 * d7 + 5 * d8 + 4 * d9 + 3 * d10 + 2 * d11)%N by lia.
  replace (6 * d0 + (5 * d1 + (4 * d2 + (3 * d3 + (2 * d4 + (9 * d5
            + (8 * d6 + (7 * d7 + (6 * d8 + (5 * d9 + (4 * d10
            + (3 * d11 + (2 * d12 + 0)))))))))))))%N
    with (6 * d0 + 5 * d1 + 4 * d2 + 3 * d3 + 2 * d4 + 9 * d5 + 8 * d6
          + 7 * d7 + 6 * d8 + 5 * d9 + 4 * d10 + 3 * d11 + 2 * d12)%N by lia.
  now destruct (_ && _).
Qed.

(** C3 as stated fails: the identifier the claim names as valid is valid
    under the weights that cycle through 2..9 and is refused under the
    weights that descend from [n + 1] to [2], the ones of the 11-digit
    rule. *)
Lemma TaxId14_descending_weights_refuse_valid :
  CnpjValidator validate_cnpj (PyStr (lit "62173620000180"))
    = Ok (PyBool true)
  /\ CnpjValidator taxid14_with_descending_weights
       (PyStr (lit "62173620000180")) = Ok (PyBool false)
  /\ weights_descending 12 = [13; 12; 11; 10; 9; 8; 7; 6; 5; 4; 3; 2]%N
  /\ weights_cycling 12 = [5; 4; 3; 2; 9; 8; 7; 6; 5; 4; 3; 2]%N.
Proof. repeat split; reflexivity. Qed.

(** C3 (TaxId14), amended: [CnpjValidator], over the rule of the spec for
    brazilnum's [validate_cnpj], answers [False] for every input that is not
    true and for a text that does not hold fourteen digits, and otherwise
    whether the thirteenth and the fourteenth digit are the check digits of
    the twelve and of the thirteen digits before them, the check digit found
    as for the 11-digit rule and the weights cycling through 2..9 from the
    last digit of the prefix backwards.  The three identifiers of the spec
    validate as it says. *)
Theorem CnpjValidator_TaxId14 :
  (forall param, truthy param = false ->
     CnpjValidator validate_cnpj param = Ok (PyBool false))
  /\ (forall s, length (digits_of s) <> 14 ->
        CnpjValidator validate_cnpj (PyStr s) = Ok (PyBool false))
  /\ (forall s d0 d1 d2 d3 d4 d5 d6 d7 d8 d9 d10 d11 d12 d13,
        digits_of s
        = [d0; d1; d2; d3; d4; d5; d6; d7; d8; d9; d10; d11; d12; d13] ->
        CnpjValidator validate_cnpj (PyStr s)
        = Ok (PyBool
                (N.eqb (digit_for ((5 * d0 + 4 * d1 + 3 * d2 + 2 * d3
                                    + 9 * d4 + 8 * d5 + 7 * d6 + 6 * d7
                                    + 5 * d8 + 4 * d9 + 3 * d10 + 2 * d11)
                                   mod 11)) d12
                 && N.eqb (digit_for ((6 * d0 + 5 * d1 + 4 * d2 + 3 * d3
                                       + 2 * d4 + 9 * d5 + 8 * d6 + 7 * d7
                                       + 6 * d8 + 5 * d9 + 4 * d10 + 3 * d11
                                       + 2 * d12) mod 11)) d13))%N)
  /\ CnpjValidator validate_cnpj (PyStr (lit "62173620000180"))
     = Ok (PyBool true)
  /\ CnpjValidator validate_cnpj (PyStr (lit "62173620000181"))
     = Ok (PyBool false)
  /\ CnpjValidator validate_cnpj (PyStr (lit "")) = Ok (PyBool false).
Proof.
  split; [exact (CnpjValidator_not_true validate_cnpj) |].
  split; [exact CnpjValidator_length |].
  split; [exact CnpjValidator_digits |].
  repeat split; reflexivity.
Qed.

(** * The normalisers and the cleaner, for every database *)

Section General.

Context {U : unicode_database}.

(** ** What the normalisers compute *)

Lemma filter_filter (p q : char -> bool) (s : str) :
  filter p (filter q s) = filter (fun c => q c && p c) s.
Proof.
  induction s as [| c s IH]; simpl; [reflexivity |].
  destruct (q c); simpl; [destruct (p c) |]; now rewrite IH.
Qed.

Lemma filter_all (p : char -> bool) (s : str) :
  Forall (fun c => p c = true) s -> filter p s = s.
Proof.
  induction 1 as [| c s Hc _ IH]; simpl; [reflexivity |].
  now rewrite Hc, IH.
Qed.

Lemma filter_satisfies (p : char -> bool) (s : str) :
  Forall (fun c => p c = true) (filter p s).
Proof.
  apply Forall_forall; intros c Hc; now apply filter_In in Hc.
Qed.

Lemma replace_by_empty_filter r s :
  replace_by_empty r s = filter (fun c => negb (c =? r)%N) s.
Proof.
  induction s as [| c s IH]; simpl; [reflexivity |].
  destruct (c =? r)%N; simpl; now rewrite IH.
Qed.

Lemma remove_loop rs : forall s,
  fold_left (fun acc r => t <- acc ;; str_method (replace_by_empty r) t)
    rs (Ok (PyStr s))
  = Ok (PyStr (filter (fun c => negb (existsb (N.eqb c) rs)) s)).
Proof.
  induction rs as [| r rs IH]; intro s; simpl.
  - now rewrite filter_all by (apply Forall_forall; auto).
  - rewrite IH, replace_by_empty_filter, filter_filter.
    do 2 f_equal; apply filter_ext; intro c.
    now rewrite negb_orb.
Qed.

Lemma Normaliser_inp_stored a s :
  Normaliser_inp a (PyStr s) = Ok (PyStr (strips a (filter (keeps a) s))).
Proof.
  unfold Normaliser_inp, strips, keeps; rewrite remove_loop; simpl.
  destruct (strip a), (lstrip a), (rstrip a); reflexivity.
Qed.

Lemma _remove_other_chars_str f s :
  _remove_other_chars (Some f) (PyStr s) = PyStr (filter f s).
Proof. destruct s; reflexivity. Qed.

Lemma text_of_str s : text_of (PyStr s) = s.
Proof. destruct s; reflexivity. Qed.

Lemma _inp_stored n s :
  derives_Normaliser n = true -> _inp n (PyStr s) = Ok (PyStr (stored n s)).
Proof.
  intro H; destruct n; try discriminate; simpl;
    unfold _remove_non_digit_chars, _remove_non_alpha_chars,
      _remove_non_alnum_chars;
    rewrite ?_remove_other_chars_str; try reflexivity.
  apply Normaliser_inp_stored.
Qed.

Lemma inp_stored n v :
  derives_Normaliser n = true ->
  inp n v = Ok (PyStr (stored n (text_of v))).
Proof.
  intro H.
  transitivity (_inp n (PyStr (text_of v)));
    [destruct n; try discriminate; reflexivity | now apply _inp_stored].
Qed.

Lemma _outp_displayed n t :
  derives_Normaliser n = true ->
  _outp n (PyStr t) = Ok (PyStr (displayed n t)).
Proof.
  intro H; destruct n; try discriminate;
    cbv [_outp displayed py_len bind formatted]; try reflexivity.
  - now destruct (existsb (Nat.eqb (length t)) [10; 11]).
  - now destruct (existsb (Nat.eqb (length t)) [10; 11]).
  - now destruct (length t =? 8).
  - now destruct (length t =? 9).
  - now destruct (length t =? 8).
  - now destruct (length t =? 11).
  - now destruct (length t =? 14).
Qed.

Lemma outp_displayed n v :
  derives_Normaliser n = true ->
  outp n v = Ok (PyStr (displayed n (stored n (text_of v)))).
Proof.
  intro H.
  transitivity (t <- inp n (PyStr (text_of v)) ;; _outp n t);
    [destruct n; try discriminate; reflexivity |].
  rewrite inp_stored, text_of_str by assumption; simpl.
  now apply _outp_displayed.
Qed.

Lemma text_of_not_true v : truthy v = false -> text_of v = [].
Proof. intro H; unfold text_of; now rewrite H. Qed.

Lemma text_of_true v : truthy v = true -> text_of v = py_str v.
Proof. intro H; unfold text_of; now rewrite H. Qed.

Lemma stored_nil n : stored n [] = [].
Proof.
  destruct n; try reflexivity; simpl.
  unfold strips; destruct (strip a), (lstrip a), (rstrip a); reflexivity.
Qed.

Lemma displayed_nil n : displayed n [] = [].
Proof. destruct n; reflexivity. Qed.

(** ** Display off the expected length *)

Lemma displayed_off_length n s :
  ~ In (length s) (display_lengths n) -> displayed n s = s.
Proof.
  intro H; destruct n; try reflexivity; simpl in *.
  - destruct (Nat.eqb_spec (length s) 10); [lia |].
    destruct (Nat.eqb_spec (length s) 11); [lia | reflexivity].
  - destruct (Nat.eqb_spec (length s) 10); [lia |].
    destruct (Nat.eqb_spec (length s) 11); [lia | reflexivity].
  - destruct (Nat.eqb_spec (length s) 8); [lia | reflexivity].
  - destruct (Nat.eqb_spec (length s) 9); [lia | reflexivity].
  - destruct (Nat.eqb_spec (length s) 8); [lia | reflexivity].
  - destruct (Nat.eqb_spec (length s) 11); [lia | reflexivity].
  - destruct (Nat.eqb_spec (length s) 14); [lia | reflexivity].
Qed.

Lemma fixed_length_derives n :
  In n fixed_length_variants -> derives_Normaliser n = true.
Proof.
  simpl; intros [<- | [<- | [<- | [<- | [<- | [<- | [<- | []]]]]]]];
    reflexivity.
Qed.

(** C4: for each of Phone, Mob, PostCode, Passport, IDCard, Cpf and Cnpj and
    for every input, [inp] returns a text, and when the length of that text
    is not one the class formats, [outp] returns that same text: it raises
    nothing, and neither cuts nor pads. *)
Theorem outp_unchanged_off_length n x :
  In n fixed_length_variants ->
  exists s,
    inp n x = Ok (PyStr s)
    /\ (~ In (length s) (display_lengths n) -> outp n x = Ok (PyStr s)).
Proof.
  intro H; apply fixed_length_derives in H.
  exists (stored n (text_of x)); split; [now apply inp_stored |].
  intro L; rewrite outp_displayed by assumption.
  now rewrite displayed_off_length.
Qed.

(** ** No failure, and what is not true *)

(** X8: [DateNormaliser.outp] on a date: the date as it is when the table is
    empty, the date formatted with the second entry when there is one, and
    [IndexError] when the table holds one entry only. *)
Theorem DateNormaliser_outp_short_table strftime d :
  outp (DateNormaliser [] strftime) (PyDate d) = Ok (PyDate d)
  /\ (forall fmt,
        outp (DateNormaliser [fmt] strftime) (PyDate d) = Raise IndexError)
  /\ (forall fmt1 fmt2 more,
        outp (DateNormaliser (fmt1 :: fmt2 :: more) strftime) (PyDate d)
        = Ok (PyStr (strftime d fmt2))).
Proof. repeat split; reflexivity. Qed.

(** C8, amended: for a class derived from [Normaliser], [inp] and [outp]
    return a text for every input and return the empty string, as they do
    for the empty string, for every input that is not true; the character
    filter returns an input that is not true as it is; [NullNormaliser] and
    [DateNormaliser] return their input from [inp], [DateNormaliser.outp]
    returns what is no date as it is and a text for a date when the table
    holds two formats or more or none; [CpfValidator] and [CnpjValidator]
    answer [False] for what is not true, whatever the library would do. *)
Theorem normalisers_return :
  (forall n v, derives_Normaliser n = true ->
     (exists s, inp n v = Ok (PyStr s))
     /\ (exists s, outp n v = Ok (PyStr s))
     /\ (truthy v = false ->
         inp n v = inp n (PyStr []) /\ inp n v = Ok (PyStr [])
         /\ outp n v = outp n (PyStr []) /\ outp n v = Ok (PyStr [])))
  /\ (forall f v, truthy v = false -> _remove_other_chars f v = v)
  /\ (forall f v, truthy v = true ->
        exists s, _remove_other_chars f v = PyStr s)
  /\ (forall v, inp NullNormaliser v = Ok v /\ outp NullNormaliser v = Ok v)
  /\ (forall date_formats strftime v,
        inp (DateNormaliser date_formats strftime) v = Ok v
        /\ ((forall d, v <> PyDate d) ->
            outp (DateNormaliser date_formats strftime) v = Ok v)
        /\ (length date_formats <> 1 ->
            exists r, outp (DateNormaliser date_formats strftime) v = Ok r))
  /\ (forall validate v, truthy v = false ->
        CpfValidator validate v = Ok (PyBool false)
        /\ CnpjValidator validate v = Ok (PyBool false)).
Proof.
  split; [| split; [| split; [| split; [| split]]]].
  - intros n v H; split; [| split].
    + rewrite inp_stored by assumption; eauto.
    + rewrite outp_displayed by assumption; eauto.
    + intro F; rewrite !inp_stored, !outp_displayed by assumption.
      rewrite (text_of_not_true _ F), text_of_str, stored_nil, displayed_nil.
      auto.
  - intros f v F; unfold _remove_other_chars; now rewrite F.
  - intros f v T; unfold _remove_other_chars; rewrite T; eauto.
  - intro v; split; reflexivity.
  - intros fs sf v; split; [reflexivity | split].
    + intro H; destruct v; try reflexivity; now elim (H d).
    + intro L; destruct v; simpl; eauto.
      destruct fs as [| f1 [| f2 fs]]; simpl in *; eauto; lia.
  - intros validate v F; split;
      [now apply CpfValidator_not_true | now apply CnpjValidator_not_true].
Qed.

(** ** Values that are no text *)

(** C10, amended: for a class derived from [Normaliser] and a value that is
    true, [inp] and [outp] return what they return for [str] of the value,
    and that is a text; so do [execute], [__call__] and [ft] of a cleaner
    whose normaliser is of such a class, and [ft] returns a text. *)
Theorem Normaliser_converts_with_str :
  (forall n v, derives_Normaliser n = true -> truthy v = true ->
     inp n v = inp n (PyStr (py_str v))
     /\ outp n v = outp n (PyStr (py_str v))
     /\ (exists s, inp n v = Ok (PyStr s))
     /\ (exists s, outp n v = Ok (PyStr s)))
  /\ (forall c v, derives_Normaliser (normaliser_of c) = true ->
        truthy v = true ->
        execute c v = execute c (PyStr (py_str v))
        /\ Cleaner_call c v = Cleaner_call c (PyStr (py_str v))
        /\ ft c v = ft c (PyStr (py_str v))
        /\ (exists s, ft c v = Ok (PyStr s))).
Proof.
  assert (E : forall n v, derives_Normaliser n = true -> truthy v = true ->
                inp n v = inp n (PyStr (py_str v))
                /\ outp n v = outp n (PyStr (py_str v))).
  { intros n v H T; rewrite !inp_stored, !outp_displayed by assumption.
    now rewrite text_of_str, (text_of_true _ T). }
  split.
  - intros n v H T; destruct (E n v H T) as [E1 E2].
    repeat split; auto.
    + rewrite inp_stored by assumption; eauto.
    + rewrite outp_displayed by assumption; eauto.
  - intros c v H T; destruct (E _ v H T) as [E1 E2].
    unfold Cleaner_call, execute, ft, call; rewrite E1, E2.
    repeat split; auto.
    rewrite outp_displayed by assumption; eauto.
Qed.

(** ** The cleaner *)


(** ** Stripping *)

Section Strip.

Lemma dropwhile_Forall (P : char -> Prop) p s :
  Forall P s -> Forall P (dropwhile p s).
Proof.
  induction 1 as [| c s Hc Hs IH]; simpl; [constructor |].
  destruct (p c); [exact IH | now constructor].
Qed.

Lemma lstrip_Forall (P : char -> Prop) s :
  Forall P s -> Forall P (str_lstrip s).
Proof. apply dropwhile_Forall. Qed.

Lemma rstrip_Forall (P : char -> Prop) s :
  Forall P s -> Forall P (str_rstrip s).
Proof.
  intro H; unfold str_rstrip.
  apply Forall_rev, dropwhile_Forall, Forall_rev, H.
Qed.

Lemma lstrip_lclean s : lclean (str_lstrip s).
Proof.
  unfold str_lstrip; induction s as [| c s IH]; simpl; [exact I |].
  destruct (str_isspace c) eqn:E; [exact IH | exact E].
Qed.

Lemma lstrip_id s : lclean s -> str_lstrip s = s.
Proof.
  destruct s as [| c s]; simpl; [reflexivity |].
  intro H; unfold str_lstrip; simpl; now rewrite H.
Qed.

Lemma rstrip_rclean s : rclean (str_rstrip s).
Proof.
  unfold rclean, str_rstrip; rewrite rev_involutive.
  apply (lstrip_lclean (rev s)).
Qed.

Lemma rstrip_id s : rclean s -> str_rstrip s = s.
Proof.
  intro H; unfold str_rstrip.
  change (dropwhile str_isspace (rev s)) with (str_lstrip (rev s)).
  rewrite (lstrip_id (rev s) H); apply rev_involutive.
Qed.

Lemma lclean_app a b : a <> [] -> lclean (a ++ b) <-> lclean a.
Proof. destruct a; [tauto | reflexivity]. Qed.

Lemma lstrip_rclean s : rclean s -> rclean (str_lstrip s).
Proof.
  unfold str_lstrip; induction s as [| c s IH]; simpl; [auto |].
  destruct (str_isspace c) eqn:E; [| auto].
  intro H; destruct s as [| d s]; [exact I |].
  apply IH; unfold rclean in *; simpl in H |- *.
  apply (proj1 (lclean_app (rev s ++ [d]) [c]
                  (fun X => app_cons_not_nil _ _ _ (eq_sym X)))) in H.
  exact H.
Qed.

Lemma rstrip_lclean s : lclean s -> lclean (str_rstrip s).
Proof.
  intro H; unfold str_rstrip.
  assert (R : rclean (rev s)) by (unfold rclean; now rewrite rev_involutive).
  apply lstrip_rclean in R; exact R.
Qed.

Ltac clean_ends :=
  repeat first
    [ apply lstrip_lclean | apply rstrip_rclean
    | apply rstrip_lclean | apply lstrip_rclean ].

Lemma strips_idempotent a s : strips a (strips a s) = strips a s.
Proof.
  unfold strips, str_strip.
  destruct (strip a), (lstrip a), (rstrip a); cbv beta zeta iota;
    repeat first
      [ rewrite lstrip_id by clean_ends
      | rewrite rstrip_id by clean_ends ];
    reflexivity.
Qed.

Lemma strips_Forall (P : char -> Prop) a s :
  Forall P s -> Forall P (strips a s).
Proof.
  intro H; unfold strips, str_strip.
  destruct (strip a), (lstrip a), (rstrip a);
    repeat first [apply rstrip_Forall | apply lstrip_Forall]; exact H.
Qed.

End Strip.

(** ** Storing twice, and storing what is displayed *)

Lemma firstn_Forall_list (P : char -> Prop) k : forall s,
  Forall P s -> Forall P (firstn k s).
Proof.
  induction k as [| k IH]; intros s H; simpl; [constructor |].
  destruct H; constructor; auto.
Qed.

Lemma skipn_Forall_list (P : char -> Prop) k : forall s,
  Forall P s -> Forall P (skipn k s).
Proof.
  induction k as [| k IH]; intros s H; simpl; [exact H |].
  destruct H; [constructor | auto].
Qed.

Lemma slice_Forall (P : char -> Prop) i j s :
  Forall P s -> Forall P (slice i j s).
Proof. intro H; apply firstn_Forall_list, skipn_Forall_list, H. Qed.

Lemma slice_from_Forall (P : char -> Prop) i s :
  Forall P s -> Forall P (slice_from i s).
Proof. apply skipn_Forall_list. Qed.

Lemma str_eqb_eq a b : str_eqb a b = true -> a = b.
Proof. unfold str_eqb; now destruct (list_eq_dec N.eq_dec a b). Qed.

Lemma upper_stable_fixed c u :
  upper_stable c = true -> In u (upper_char c) -> upper_fixed u.
Proof.
  unfold upper_stable; rewrite forallb_forall; intros H Hu.
  apply H, andb_true_iff in Hu as [A E]; split; [exact A |].
  now apply str_eqb_eq.
Qed.

Lemma upper_closed_fixed s :
  upper_closed s -> Forall upper_fixed (str_upper (filter str_isalnum s)).
Proof.
  intro H; apply Forall_forall; intros u Hu.
  apply in_flat_map in Hu as (c & Hc & Hu).
  apply filter_In in Hc as [Hc A].
  exact (upper_stable_fixed c u (H c Hc A) Hu).
Qed.

Lemma upper_fixed_alnum t :
  Forall upper_fixed t -> Forall (fun c => str_isalnum c = true) t.
Proof. apply Forall_impl; now intros c [A _]. Qed.

Lemma upper_fixed_upper t : Forall upper_fixed t -> str_upper t = t.
Proof.
  induction 1 as [| u t [_ E] _ IH]; [reflexivity |].
  unfold str_upper in *; simpl; now rewrite E, IH.
Qed.

Lemma upper_fixed_stored t :
  Forall upper_fixed t -> stored PassportNormaliser t = t.
Proof.
  intro H; simpl.
  rewrite (filter_all _ _ (upper_fixed_alnum t H)).
  now apply upper_fixed_upper.
Qed.

Lemma stored_idempotent n s :
  (n = PassportNormaliser -> upper_closed s) ->
  stored n (stored n s) = stored n s.
Proof.
  intro H; destruct n; try reflexivity;
    try (simpl; apply filter_all, filter_satisfies).
  - simpl.
    rewrite (filter_all (keeps a) (strips a (filter (keeps a) s)))
      by apply strips_Forall, filter_satisfies.
    apply strips_idempotent.
  - apply upper_fixed_stored, upper_closed_fixed, H; reflexivity.
Qed.

Ltac explode t L :=
  repeat (destruct t as [| ? t]; simpl in L;
          [discriminate L | apply eq_add_S in L]);
  destruct t; simpl in L; [| discriminate L].

Lemma filter_none (p : char -> bool) (s : str) :
  Forall (fun c => p c = false) s -> filter p s = [].
Proof.
  induction 1 as [| c s Hc _ IH]; simpl; [reflexivity |].
  now rewrite Hc.
Qed.

Ltac separator H :=
  apply Forall_forall; intros ? Hin;
  apply (proj1 (Forall_forall _ _) H); cbv in Hin |- *; tauto.

(** When the separators of the templates are no digits, the digits of a
    display are the stored text again. *)
Lemma digits_displayed n t :
  In n [PhoneNormaliser; MobNormaliser; PostCodeNormaliser; IDCardNormaliser;
        CpfNormaliser; CnpjNormaliser] ->
  Forall (fun c => str_isdigit c = false) (lit "() .-/") ->
  Forall (fun c => str_isdigit c = true) t ->
  stored n (displayed n t) = t.
Proof.
  intros Hn P F.
  assert (K : forall i j, filter str_isdigit (slice i j t) = slice i j t)
    by (intros; apply filter_all, slice_Forall, F).
  assert (K' : forall i, filter str_isdigit (slice_from i t) = slice_from i t)
    by (intros; apply filter_all, slice_from_Forall, F).
  simpl in Hn;
    destruct Hn as [<- | [<- | [<- | [<- | [<- | [<- | []]]]]]];
    cbv [stored displayed existsb].
  - destruct (Nat.eqb_spec (length t) 10) as [L | _];
      [| destruct (Nat.eqb_spec (length t) 11) as [L | _]];
      cbv [orb]; try (now apply filter_all);
      rewrite !filter_app, !K, K';
      rewrite !(filter_none str_isdigit) by separator P;
      explode t L; reflexivity.
  - destruct (Nat.eqb_spec (length t) 10) as [L | _];
      [| destruct (Nat.eqb_spec (length t) 11) as [L | _]];
      cbv [orb]; try (now apply filter_all);
      rewrite !filter_app, !K, K';
      rewrite !(filter_none str_isdigit) by separator P;
      explode t L; reflexivity.
  - destruct (Nat.eqb_spec (length t) 8) as [L | _];
      [| now apply filter_all].
    rewrite !filter_app, !K.
    rewrite !(filter_none str_isdigit) by separator P.
    explode t L; reflexivity.
  - destruct (Nat.eqb_spec (length t) 9) as [L | _];
      [| now apply filter_all].
    rewrite !filter_app, !K.
    rewrite !(filter_none str_isdigit) by separator P.
    explode t L; reflexivity.
  - destruct (Nat.eqb_spec (length t) 11) as [L | _];
      [| now apply filter_all].
    rewrite !filter_app, !K.
    rewrite !(filter_none str_isdigit) by separator P.
    explode t L; reflexivity.
  - destruct (Nat.eqb_spec (length t) 14) as [L | _];
      [| now apply filter_all].
    rewrite !filter_app, !K.
    rewrite !(filter_none str_isdigit) by separator P.
    explode t L; reflexivity.
Qed.

Lemma passport_displayed t :
  Forall (fun c => str_isalnum c = false) (lit "() .-/") ->
  Forall upper_fixed t ->
  stored PassportNormaliser (displayed PassportNormaliser t) = t.
Proof.
  intros P F; cbv [displayed].
  destruct (Nat.eqb_spec (length t) 8) as [L | _];
    [| now apply upper_fixed_stored].
  assert (A := upper_fixed_alnum t F).
  cbv [stored]; unfold str_upper.
  rewrite !filter_app.
  rewrite !(fun i j => filter_all _ _ (slice_Forall _ i j t A)).
  rewrite !(filter_none str_isalnum (lit " ")) by separator P.
  rewrite !flat_map_app.
  change (flat_map upper_char) with str_upper.
  rewrite !(fun i j => upper_fixed_upper _ (slice_Forall _ i j t F)).
  explode t L; reflexivity.
Qed.

(** C5, amended: for every class and every input, [inp] returns a value that
    [inp] returns as it is, and for each of Phone, Mob, PostCode, Passport,
    IDCard, Cpf and Cnpj and every input, of whatever length, displaying what
    is stored from the display gives the display again, the separators of
    the templates being neither digits nor alphanumeric; for the passport
    class both hold when the text upper-cases within the alphanumeric
    characters. *)
Theorem inp_idempotent_and_display_round_trip :
  (forall n x, (n = PassportNormaliser -> upper_closed (text_of x)) ->
     exists t, inp n x = Ok t /\ inp n t = Ok t)
  /\ (forall n x, In n fixed_length_variants ->
        Forall (fun c => str_isdigit c = false /\ str_isalnum c = false)
          (lit "() .-/") ->
        (n = PassportNormaliser -> upper_closed (text_of x)) ->
        exists d t, outp n x = Ok d /\ inp n d = Ok t /\ outp n t = Ok d).
Proof.
  split.
  - intros n x H; destruct (derives_Normaliser n) eqn:D.
    + exists (PyStr (stored n (text_of x))).
      rewrite !inp_stored, text_of_str by assumption.
      now rewrite stored_idempotent.
    + exists x; destruct n; try discriminate; split; reflexivity.
  - intros n x Hn P H.
    assert (D := fixed_length_derives n Hn).
    assert (P1 : Forall (fun c => str_isdigit c = false) (lit "() .-/"))
      by (revert P; apply Forall_impl; tauto).
    assert (P2 : Forall (fun c => str_isalnum c = false) (lit "() .-/"))
      by (revert P; apply Forall_impl; tauto).
    exists (PyStr (displayed n (stored n (text_of x)))),
      (PyStr (stored n (text_of x))).
    rewrite !outp_displayed, !inp_stored, !text_of_str by assumption.
    rewrite (stored_idempotent n _ H).
    repeat split; f_equal; f_equal.
    simpl in Hn;
      destruct Hn as [<- | [<- | [<- | [<- | [<- | [<- | [<- | []]]]]]]];
      try (apply digits_displayed;
           [simpl; tauto | exact P1 | apply filter_satisfies]).
    apply passport_displayed; [exact P2 |].
    apply upper_closed_fixed, H; reflexivity.
Qed.

End General.

(** * At Python's database *)

(** ** Display off the expected length *)

Lemma outp_unchanged_off_length_witness :
  In PhoneNormaliser fixed_length_variants
  /\ exists s,
       inp PhoneNormaliser (PyStr (lit "(12) 34-5")) = Ok (PyStr s)
       /\ (~ In (length s) (display_lengths PhoneNormaliser) ->
           outp PhoneNormaliser (PyStr (lit "(12) 34-5")) = Ok (PyStr s)).
Proof.
  split; [simpl; auto |].
  apply (outp_unchanged_off_length PhoneNormaliser
           (PyStr (lit "(12) 34-5"))).
  simpl; auto.
Defined.

(** What is returned unchanged is the text as stored, not the text given;
    at the expected length the template is applied. *)
Lemma outp_examples :
  outp PhoneNormaliser (PyStr (lit "(12) 34-5")) = Ok (PyStr (lit "12345"))
  /\ outp IDCardNormaliser (PyStr (lit "12.345-678"))
     = Ok (PyStr (lit "12345678"))
  /\ outp PassportNormaliser (PyStr (lit "a-123456"))
     = Ok (PyStr (lit "A123456"))
  /\ outp PhoneNormaliser (PyStr (lit "1234567890"))
     = Ok (PyStr (lit "(12) 3456 7890"))
  /\ outp PhoneNormaliser (PyStr (lit "12345678901"))
     = Ok (PyStr (lit "(12) 3456 78901"))
  /\ outp MobNormaliser (PyStr (lit "12345678901"))
     = Ok (PyStr (lit "(12) 3456 78901"))
  /\ outp PostCodeNormaliser (PyStr (lit "12345678"))
     = Ok (PyStr (lit "12345-678"))
  /\ outp PassportNormaliser (PyStr (lit "aa-12-34-56"))
     = Ok (PyStr (lit "AA 123 456"))
  /\ outp IDCardNormaliser (PyStr (lit "12-34.56=78/9"))
     = Ok (PyStr (lit "1234.5678-9"))
  /\ outp CpfNormaliser (PyStr (lit "706.003/991-09"))
     = Ok (PyStr (lit "706.003.991-09"))
  /\ outp CnpjNormaliser (PyStr (lit "62173620000180"))
     = Ok (PyStr (lit "62.173.620/0001-80")).
Proof. repeat split; reflexivity. Qed.

(** ** No failure, and what is not true *)

(** C8 as stated fails: the two pass-through classes return [None] for
    [None] and the empty string for the empty string, so that [None] does not
    behave as the empty string there, and the character filter returns
    [None] for [None]. *)
Lemma DateNormaliser_passes_None_through :
  inp NullNormaliser PyNone = Ok PyNone
  /\ inp NullNormaliser (PyStr []) = Ok (PyStr [])
  /\ (forall date_formats strftime,
        inp (DateNormaliser date_formats strftime) PyNone = Ok PyNone
        /\ outp (DateNormaliser date_formats strftime) PyNone = Ok PyNone
        /\ inp (DateNormaliser date_formats strftime) (PyStr [])
           = Ok (PyStr [])
        /\ outp (DateNormaliser date_formats strftime) (PyStr [])
           = Ok (PyStr []))
  /\ _remove_non_digit_chars PyNone = PyNone.
Proof. repeat split; reflexivity. Qed.

Lemma normalisers_return_witness :
  (exists s, inp CpfNormaliser PyNone = Ok (PyStr s))
  /\ (exists s, outp CpfNormaliser PyNone = Ok (PyStr s))
  /\ (truthy PyNone = false ->
      inp CpfNormaliser PyNone = inp CpfNormaliser (PyStr [])
      /\ inp CpfNormaliser PyNone = Ok (PyStr [])
      /\ outp CpfNormaliser PyNone = outp CpfNormaliser (PyStr [])
      /\ outp CpfNormaliser PyNone = Ok (PyStr [])).
Proof.
  apply (proj1 normalisers_return CpfNormaliser PyNone); reflexivity.
Defined.

(** ** Values that are no text *)

(** C10 as stated fails: the two pass-through classes return the integer
    they are given, not its text, and a cleaner built on one hands the
    integer to [re.fullmatch], which raises. *)
Lemma DateNormaliser_does_not_convert :
  inp NullNormaliser (PyInt 12345) = Ok (PyInt 12345)
  /\ (forall date_formats strftime,
        inp (DateNormaliser date_formats strftime) (PyInt 12345)
          = Ok (PyInt 12345)
        /\ outp (DateNormaliser date_formats strftime) (PyInt 12345)
           = Ok (PyInt 12345)
        /\ execute
             (Cleaner_init (Some NumericValidator)
                (Some (DateNormaliser date_formats strftime)) None None)
             (PyInt 12345) = Raise TypeError).
Proof. repeat split; reflexivity. Qed.

Lemma Normaliser_converts_with_str_witness :
  inp NumericNormaliser (PyInt 12345)
    = inp NumericNormaliser (PyStr (py_str (PyInt 12345)))
  /\ outp NumericNormaliser (PyInt 12345)
     = outp NumericNormaliser (PyStr (py_str (PyInt 12345)))
  /\ (exists s, inp NumericNormaliser (PyInt 12345) = Ok (PyStr s))
  /\ (exists s, outp NumericNormaliser (PyInt 12345) = Ok (PyStr s)).
Proof.
  apply (proj1 Normaliser_converts_with_str NumericNormaliser (PyInt 12345));
    reflexivity.
Defined.

(** The integer 12345 is stored as the text 12345. *)
Lemma integers_are_stored_as_text :
  inp NumericNormaliser (PyInt 12345) = Ok (PyStr (lit "12345"))
  /\ outp PhoneNormaliser (PyInt 1234567890)
     = Ok (PyStr (lit "(12) 3456 7890"))
  /\ inp (Normaliser (Normaliser_init None None None None)) (PyBool true)
     = Ok (PyStr (lit "True"))
  /\ execute (Cleaner_init (Some NumericValidator) (Some NumericNormaliser)
                None None) (PyInt 12345)
     = Ok (PyStr (lit "12345"))
  /\ ft (Cleaner_init (Some NumericValidator) (Some NumericNormaliser)
           None None) (PyInt 12345)
     = Ok (PyStr (lit "12345")).
Proof. repeat split; reflexivity. Qed.

(** ** The cleaner *)


(** The cleaners of the spec and of the tests. *)
Lemma Cleaner_examples :
  (let clean_cpf :=
     Cleaner_init (Some (CpfValidator validate_cpf)) (Some CpfNormaliser)
       (Some (lit "xyz")) None in
   execute clean_cpf (PyStr (lit "000.001.281-55"))
     = Ok (PyStr (lit "00000128155"))
   /\ execute clean_cpf (PyStr (lit "000001281555"))
      = Raise (ValidationError (lit "xyz"))
   /\ execute clean_cpf (PyStr (lit "00000128156"))
      = Raise (ValidationError (lit "xyz")))
  /\ (let clean_pp :=
        Cleaner_init (Some PassportValidator) (Some PassportNormaliser)
          (Some (lit "xyz")) None in
      execute clean_pp (PyStr (lit "  aa123456  "))
        = Ok (PyStr (lit "AA123456"))
      /\ execute clean_pp (PyStr (lit "A123456"))
         = Raise (ValidationError (lit "xyz"))
      /\ execute clean_pp PyNone = Raise (ValidationError (lit "xyz"))
      /\ ft clean_pp (PyStr (lit "aa-12-34-56"))
         = Ok (PyStr (lit "AA 123 456")))
  /\ execute (Cleaner_init None None None None)
       (PyStr (lit "  123  abc&*@$ --= "))
     = Ok (PyStr (lit "123  abc&*@$ --="))
  /\ execute (Cleaner_init (Some IDCardValidator) (Some IDCardNormaliser)
                None None) (PyStr (lit "12345678"))
     = Raise (ValidationError (lit "validation error")).
Proof. repeat split; reflexivity. Qed.

(** ** Filtering *)

Lemma filter_subseq (p : char -> bool) (s : str) : subseq (filter p s) s.
Proof.
  induction s as [| c s IH]; simpl; [constructor |].
  destruct (p c); now constructor.
Qed.

Lemma filter_count (p : char -> bool) (s : str) (c : char) :
  p c = true ->
  count_occ N.eq_dec (filter p s) c = count_occ N.eq_dec s c.
Proof.
  intro Hc; induction s as [| d s IH]; simpl; [reflexivity |].
  destruct (N.eq_dec d c) as [-> | Hd].
  - rewrite Hc; simpl; destruct (N.eq_dec c c); [now rewrite IH | tauto].
  - destruct (p d); simpl; [destruct (N.eq_dec d c); [tauto |] |]; exact IH.
Qed.

Lemma in_range_spec lo hi c :
  in_range lo hi c = true <-> (lo <= c <= hi)%N.
Proof.
  unfold in_range; now rewrite andb_true_iff, !N.leb_le.
Qed.


Lemma isdigit_table_ascii c :
  (c < 128)%N -> isdigit_table c = true <-> ascii_digit c.
Proof.
  intro H; unfold isdigit_table, in_ranges, ascii_digit; simpl.
  rewrite !orb_true_iff, !in_range_spec.
  split; [intros [? | [? | [? | ?]]]; try lia; discriminate | auto].
Qed.

Lemma isalpha_table_ascii c :
  (c < 128)%N -> isalpha_table c = true <-> ascii_letter c.
Proof.
  intro H; unfold isalpha_table, in_ranges, ascii_letter, ascii_upper,
    ascii_lower; simpl.
  rewrite !orb_true_iff, !in_range_spec.
  split; [| tauto].
  intros [? | [? | [? | [? | [? | [? | [? | [? | [? | [? | [? | ?]]]]]]]]]]];
    try lia; discriminate.
Qed.

Lemma isalnum_table_ascii c :
  (c < 128)%N -> isalnum_table c = true <-> ascii_digit c \/ ascii_letter c.
Proof.
  intro H; unfold isalnum_table.
  rewrite !orb_true_iff, isalpha_table_ascii, isdigit_table_ascii
    by assumption.
  unfold isdecimal_table, isnumeric_table, in_ranges, ascii_digit; simpl.
  rewrite !orb_true_iff, !in_range_spec.
  split; [| tauto].
  intros [[[? | ?] | ?] | [? | [? | [? | [? | ?]]]]]; try tauto; try lia;
    discriminate.
Qed.

(** C6 as stated fails: the digit filter keeps the superscript two (U+00B2),
    for which [str.isdigit] is true, the letter filter keeps the letter
    e-acute (U+00E9), and the filter returns [None] for [None]. *)
Lemma remove_other_chars_keeps_non_ascii :
  _remove_non_digit_chars (PyStr [0x78; 0xB2]%N) = PyStr [0xB2]%N
  /\ _remove_non_alpha_chars (PyStr [0x31; 0xE9]%N) = PyStr [0xE9]%N
  /\ _remove_non_alnum_chars (PyStr [0x2D; 0xE9; 0xB2]%N)
     = PyStr [0xE9; 0xB2]%N
  /\ _remove_non_digit_chars PyNone = PyNone.
Proof. repeat split; reflexivity. Qed.

(** C6, amended: for an input that is true the filter returns the characters
    of its text that satisfy the predicate, each as often as it stands there
    and in the order it stands there, and nothing else; an input that is not
    true is returned as it is, so the empty string for the empty string and
    [None] for [None]; filtering twice is filtering once.  The three
    predicates are [str.isdigit], [str.isalpha] and [str.isalnum]: among the
    ASCII characters they hold of 0-9, of A-Z and a-z, and of both. *)
Theorem remove_other_chars_filters :
  (forall p v, truthy v = true ->
     exists r,
       _remove_other_chars (Some p) v = PyStr r
       /\ subseq r (py_str v)
       /\ Forall (fun c => p c = true) r
       /\ (forall c, p c = true ->
           count_occ N.eq_dec r c = count_occ N.eq_dec (py_str v) c))
  /\ (forall f v, truthy v = false -> _remove_other_chars f v = v)
  /\ (forall f v,
        _remove_other_chars f (_remove_other_chars f v)
        = _remove_other_chars f v)
  /\ (forall c, (c < 128)%N ->
        (str_isdigit c = true <-> ascii_digit c)
        /\ (str_isalpha c = true <-> ascii_letter c)
        /\ (str_isalnum c = true <-> ascii_digit c \/ ascii_letter c))
  /\ _remove_non_digit_chars (PyStr (lit "AA-123-456")) = PyStr (lit "123456")
  /\ _remove_non_alpha_chars (PyStr (lit "1a2b3c")) = PyStr (lit "abc")
  /\ _remove_non_alnum_chars (PyStr (lit "1a=2b-3c")) = PyStr (lit "1a2b3c")
  /\ _remove_non_digit_chars (PyStr []) = PyStr [].
Proof.
  split; [| split; [| split; [| split; [| repeat split; reflexivity]]]].
  - intros p v T; exists (filter p (py_str v)).
    unfold _remove_other_chars; rewrite T; repeat split.
    + apply filter_subseq.
    + apply filter_satisfies.
    + intros c Hc; now apply filter_count.
  - intros f v F; unfold _remove_other_chars; now rewrite F.
  - intros f v; unfold _remove_other_chars at 2 3.
    destruct (truthy v) eqn:T.
    + set (g := match f with Some f' => f' | None => fun _ => true end).
      unfold _remove_other_chars.
      destruct (truthy (PyStr (filter g (py_str v)))); [| reflexivity].
      simpl py_str; fold g.
      now rewrite filter_all by apply filter_satisfies.
    + unfold _remove_other_chars; now rewrite T.
  - intros c H; split; [| split].
    + exact (isdigit_table_ascii c H).
    + exact (isalpha_table_ascii c H).
    + exact (isalnum_table_ascii c H).
Qed.

(** ** Storing twice, and storing what is displayed *)

Lemma below_forall (P : N -> bool) k :
  forallb P (map N.of_nat (seq 0 k)) = true ->
  forall c, (c < N.of_nat k)%N -> P c = true.
Proof.
  rewrite forallb_forall; intros H c Hc; apply H.
  rewrite <- (N2Nat.id c); apply in_map, in_seq; lia.
Qed.

(** Text of characters below U+0100 upper-cases within the alphanumeric
    characters: the sharp s becomes SS, the micro sign U+039C and the y with
    diaeresis U+0178, each alphanumeric and its own upper case. *)
Lemma latin1_upper_closed s :
  Forall (fun c => (c < 256)%N) s -> upper_closed s.
Proof.
  intros F c Hc A; rewrite Forall_forall in F; specialize (F c Hc).
  assert (T : implb (str_isalnum c) (upper_stable c) = true).
  { apply (below_forall (fun c => implb (str_isalnum c) (upper_stable c))
             256); [vm_compute; reflexivity | exact F]. }
  now rewrite A in T.
Qed.

(** The separators of the templates are neither digits nor alphanumeric. *)
Lemma separators_plain :
  Forall (fun c => str_isdigit c = false /\ str_isalnum c = false)
    (lit "() .-/").
Proof.
  change (lit "() .-/") with [40; 41; 32; 46; 45; 47]%N.
  repeat constructor.
Qed.

(** C5 as stated fails for the passport class: the letter U+01F0 is
    alphanumeric and its upper case is J followed by the combining caron
    U+030C, which is not; storing what was stored drops the caron, and
    displaying what is stored from the display gives another text. *)
Lemma PassportNormaliser_inp_not_idempotent :
  inp PassportNormaliser (PyStr ([0x1F0]%N ++ lit "123456"))
    = Ok (PyStr ([0x4A; 0x30C]%N ++ lit "123456"))
  /\ inp PassportNormaliser (PyStr ([0x4A; 0x30C]%N ++ lit "123456"))
     = Ok (PyStr (lit "J123456"))
  /\ outp PassportNormaliser (PyStr ([0x1F0]%N ++ lit "123456"))
     = Ok (PyStr ([0x4A; 0x30C]%N ++ lit " 123 456"))
  /\ inp PassportNormaliser (PyStr ([0x4A; 0x30C]%N ++ lit " 123 456"))
     = Ok (PyStr (lit "J123456"))
  /\ outp PassportNormaliser (PyStr (lit "J123456"))
     = Ok (PyStr (lit "J123456")).
Proof. repeat split; reflexivity. Qed.

Lemma inp_idempotent_and_display_round_trip_witness :
  (exists t,
     inp PassportNormaliser (PyStr (lit "aa-12-34-56")) = Ok t
     /\ inp PassportNormaliser t = Ok t)
  /\ (exists d t,
        outp PassportNormaliser (PyStr (lit "aa-12-34-56")) = Ok d
        /\ inp PassportNormaliser d = Ok t
        /\ outp PassportNormaliser t = Ok d).
Proof.
  assert (C : upper_closed (text_of (PyStr (lit "aa-12-34-56")))).
  { apply latin1_upper_closed; vm_compute; repeat constructor. }
  split.
  - apply (proj1 inp_idempotent_and_display_round_trip PassportNormaliser
             (PyStr (lit "aa-12-34-56"))); intros _; exact C.
  - apply (proj2 inp_idempotent_and_display_round_trip PassportNormaliser
             (PyStr (lit "aa-12-34-56")));
      [simpl; tauto | exact separators_plain | intros _; exact C].
Defined.

(** The round trips of the tests. *)
Lemma round_trip_examples :
  outp CpfNormaliser (PyStr (lit "69720010568"))
    = Ok (PyStr (lit "697.200.105-68"))
  /\ inp CpfNormaliser (PyStr (lit "697.200.105-68"))
     = Ok (PyStr (lit "69720010568"))
  /\ outp CpfNormaliser (PyStr (lit " 697.200.105-68  "))
     = Ok (PyStr (lit "697.200.105-68"))
  /\ outp CnpjNormaliser (PyStr (lit "62.173.620/0001-80"))
     = Ok (PyStr (lit "62.173.620/0001-80"))
  /\ inp PassportNormaliser (PyStr (lit "AA 123 456"))
     = Ok (PyStr (lit "AA123456"))
  /\ inp PassportNormaliser (PyStr (lit "aa-123.456"))
     = Ok (PyStr (lit "AA123456"))
  /\ inp (Normaliser (Normaliser_init None None (Some true) None))
       (PyStr (lit " abc ")) = Ok (PyStr (lit "abc "))
  /\ inp (Normaliser (Normaliser_init None None None (Some true)))
       (PyStr (lit " abc ")) = Ok (PyStr (lit " abc"))
  /\ inp (Normaliser (Normaliser_init (Some (lit "-.")) None None None))
       (PyStr (lit " 020-1234.5678 ")) = Ok (PyStr (lit "02012345678")).
Proof. repeat split; reflexivity. Qed.

(** * More of the code *)

Section MoreGeneral.

Context {U : unicode_database}.

(** ** What [Normaliser] stores *)

Lemma subseq_nil_l s : subseq [] s.
Proof. induction s; now constructor. Qed.

Lemma subseq_refl s : subseq s s.
Proof. induction s; now constructor. Qed.

Lemma subseq_trans a b c : subseq a b -> subseq b c -> subseq a c.
Proof.
  intros H1 H2; revert a H1.
  induction H2 as [| x b c _ IH | x b c _ IH]; intros a H1.
  - exact H1.
  - inversion H1; subst; constructor; auto.
  - constructor; auto.
Qed.

Lemma subseq_app_l pre s : subseq s (pre ++ s).
Proof. induction pre; simpl; [apply subseq_refl | now constructor]. Qed.

Lemma subseq_app_r s suf : subseq s (s ++ suf).
Proof. induction s; simpl; [apply subseq_nil_l | now constructor]. Qed.

Lemma dropwhile_suffix p s : exists pre, s = pre ++ dropwhile p s.
Proof.
  induction s as [| c s [pre IH]]; simpl; [now exists [] |].
  destruct (p c); [| now exists []].
  exists (c :: pre); simpl; now f_equal.
Qed.

Lemma lstrip_subseq s : subseq (str_lstrip s) s.
Proof.
  destruct (dropwhile_suffix str_isspace s) as [pre E].
  unfold str_lstrip; rewrite E at 2; apply subseq_app_l.
Qed.

Lemma rstrip_subseq s : subseq (str_rstrip s) s.
Proof.
  destruct (dropwhile_suffix str_isspace (rev s)) as [pre E].
  apply (f_equal (@rev char)) in E; rewrite rev_involutive, rev_app_distr in E.
  unfold str_rstrip; rewrite E at 2; apply subseq_app_r.
Qed.

Lemma strips_subseq a s : subseq (strips a s) s.
Proof.
  unfold strips, str_strip.
  destruct (strip a), (lstrip a), (rstrip a);
    repeat first
      [ apply subseq_refl
      | eapply subseq_trans; [apply rstrip_subseq |]
      | eapply subseq_trans; [apply lstrip_subseq |] ].
Qed.

Ltac ends :=
  repeat first
    [ apply lstrip_lclean | apply rstrip_rclean
    | apply rstrip_lclean | apply lstrip_rclean ].

Lemma strips_ends a s :
  (strip a = true -> lclean (strips a s) /\ rclean (strips a s))
  /\ (lstrip a = true -> lclean (strips a s))
  /\ (rstrip a = true -> rclean (strips a s)).
Proof.
  unfold strips, str_strip.
  destruct (strip a), (lstrip a), (rstrip a);
    repeat split; intros; try discriminate; ends.
Qed.

Lemma keeps_not_removed a c : keeps a c = true -> ~ In c (remove a).
Proof.
  unfold keeps; intros H Hin.
  apply negb_true_iff in H.
  assert (E : existsb (N.eqb c) (remove a) = true).
  { apply existsb_exists; exists c; split; [exact Hin | apply N.eqb_refl]. }
  congruence.
Qed.

Lemma stored_Normaliser_facts a s :
  subseq (stored (Normaliser a) s) s
  /\ (forall c, In c (remove a) -> ~ In c (stored (Normaliser a) s))
  /\ (strip a = true ->
      lclean (stored (Normaliser a) s) /\ rclean (stored (Normaliser a) s))
  /\ (lstrip a = true -> lclean (stored (Normaliser a) s))
  /\ (rstrip a = true -> rclean (stored (Normaliser a) s)).
Proof.
  simpl; split; [| split].
  - eapply subseq_trans; [apply strips_subseq | apply filter_subseq].
  - intros c Hr Hs.
    assert (F : Forall (fun c => keeps a c = true)
                  (strips a (filter (keeps a) s)))
      by apply strips_Forall, filter_satisfies.
    rewrite Forall_forall in F.
    exact (keeps_not_removed a c (F c Hs) Hr).
  - apply strips_ends.
Qed.

(** X9: for every setting of its four attributes and every input,
    [Normaliser.inp] returns a text that is the input's text with characters
    left out, in which no character of [remove] is left, and whose ends are
    free of white space on the side or sides the attributes ask for. *)
Theorem Normaliser_inp_invariants a v :
  exists s,
    inp (Normaliser a) v = Ok (PyStr s)
    /\ subseq s (text_of v)
    /\ (forall c, In c (remove a) -> ~ In c s)
    /\ (strip a = true -> lclean s /\ rclean s)
    /\ (lstrip a = true -> lclean s)
    /\ (rstrip a = true -> rclean s).
Proof.
  exists (stored (Normaliser a) (text_of v)).
  split; [now apply inp_stored | apply stored_Normaliser_facts].
Qed.

(** X10: [Normaliser.__init__] cannot switch stripping off: [strip=False]
    alone leaves the class's [strip] in force, whatever the arguments one of
    the three strips is on, and so the text stored is free of white space at
    its head or at its end. *)
Theorem Normaliser_init_always_strips :
  (forall r, Normaliser_init r (Some false) None None
             = Normaliser_init r None None None)
  /\ (forall r s l t,
        let a := Normaliser_init r s l t in
        strip a = true \/ lstrip a = true \/ rstrip a = true)
  /\ (forall r s l t v,
        exists x,
          inp (Normaliser (Normaliser_init r s l t)) v = Ok (PyStr x)
          /\ (lclean x \/ rclean x)).
Proof.
  assert (A : forall r s l t,
            let a := Normaliser_init r s l t in
            strip a = true \/ lstrip a = true \/ rstrip a = true).
  { intros r [[|] |] [[|] |] [[|] |]; cbv; tauto. }
  split; [reflexivity | split; [exact A |]].
  intros r s l t v.
  exists (stored (Normaliser (Normaliser_init r s l t)) (text_of v)).
  split; [now apply inp_stored |].
  destruct (stored_Normaliser_facts (Normaliser_init r s l t) (text_of v))
    as (_ & _ & Hs & Hl & Hr).
  destruct (A r s l t) as [H | [H | H]];
    [left; now apply Hs | left; now apply Hl | right; now apply Hr].
Qed.

(** X11: the cleaner made without arguments accepts every input: it returns
    the input's text stripped of white space at both ends and raises
    nothing. *)
Theorem Cleaner_default_accepts v :
  exists s,
    execute (Cleaner_init None None None None) v = Ok (PyStr s)
    /\ s = str_strip (text_of v)
    /\ lclean s /\ rclean s.
Proof.
  exists (str_strip (text_of v)).
  split; [| split; [reflexivity | split; unfold str_strip; ends]].
  unfold execute, call; simpl normaliser_of.
  rewrite inp_stored by reflexivity; simpl.
  now rewrite filter_all by (apply Forall_forall; auto).
Qed.

End MoreGeneral.

Section MoreCleaning.

Context {U : unicode_database}.

(** ** Displaying and cleaning again *)

Lemma stored_of_displayed n s :
  derives_Normaliser n = true ->
  Forall (fun c => str_isdigit c = false /\ str_isalnum c = false)
    (lit "() .-/") ->
  (n = PassportNormaliser -> upper_closed s) ->
  stored n (displayed n (stored n s)) = stored n s.
Proof.
  intros D P H.
  assert (P1 : Forall (fun c => str_isdigit c = false) (lit "() .-/"))
    by (revert P; apply Forall_impl; tauto).
  assert (P2 : Forall (fun c => str_isalnum c = false) (lit "() .-/"))
    by (revert P; apply Forall_impl; tauto).
  destruct n; try discriminate;
    try (apply digits_displayed;
         [simpl; tauto | exact P1 | apply filter_satisfies]);
    try (apply (stored_idempotent _ s); intro; discriminate).
  apply passport_displayed; [exact P2 |].
  apply upper_closed_fixed, H; reflexivity.
Qed.

(** X12: for every class derived from [Normaliser], displaying a display
    gives it again: [outp] returns a text that [outp] returns as it is, the
    separators being neither digits nor alphanumeric and, for the passport
    class, the text upper-casing within the alphanumeric characters. *)
Theorem outp_idempotent n x :
  derives_Normaliser n = true ->
  Forall (fun c => str_isdigit c = false /\ str_isalnum c = false)
    (lit "() .-/") ->
  (n = PassportNormaliser -> upper_closed (text_of x)) ->
  exists d, outp n x = Ok (PyStr d) /\ outp n (PyStr d) = Ok (PyStr d).
Proof.
  intros D P H.
  exists (displayed n (stored n (text_of x))).
  rewrite !outp_displayed, text_of_str by assumption.
  now rewrite stored_of_displayed.
Qed.

(** X13: what a cleaner returns it returns again when it is given it: the
    form may run the cleaner as a validator of the field and once more in
    its [clean], as the source says it would.  For the passport class the
    text is to upper-case within the alphanumeric characters. *)
Theorem execute_again c text n :
  (normaliser_of c = PassportNormaliser -> upper_closed (text_of text)) ->
  execute c text = Ok n ->
  execute c n = Ok n /\ Cleaner_call c n = Ok n.
Proof.
  intros H E; unfold Cleaner_call.
  assert (G : execute c n = Ok n); [| now split].
  unfold execute, call in *.
  destruct (inp (normaliser_of c) text) as [n0 | e] eqn:I; [| discriminate].
  simpl in E.
  destruct (validator c n0) as [v | e] eqn:V; [| discriminate].
  simpl in E.
  destruct (truthy v) eqn:T; [| discriminate].
  injection E as <-.
  assert (I2 : inp (normaliser_of c) n0 = Ok n0).
  { destruct (derives_Normaliser (normaliser_of c)) eqn:D.
    - rewrite inp_stored in I by assumption; injection I as <-.
      rewrite inp_stored, text_of_str by assumption.
      now rewrite stored_idempotent.
    - destruct (normaliser_of c); try discriminate; reflexivity. }
  rewrite I2; simpl; rewrite V; simpl; now rewrite T.
Qed.

(** X14: a cleaner made of a [RegexValidator] whose pattern compiles and of
    a normaliser derived from [Normaliser] has two outcomes for every input,
    text or not: it returns the stored text when the whole of it is in the
    pattern's language, and raises the configured exception with the
    configured message when it is not; [re.fullmatch] is never given what is
    no text. *)
Theorem regex_cleaner_outcome pattern r n msg exc v :
  re_compile pattern = Some r ->
  derives_Normaliser n = true ->
  let c := Cleaner_init (Some (RegexValidator pattern)) (Some n) msg exc in
  exists s,
    inp n v = Ok (PyStr s)
    /\ ((Matches r s /\ execute c v = Ok (PyStr s))
        \/ (~ Matches r s
            /\ execute c v = Raise (exception c (exception_msg c)))).
Proof.
  intros R D c.
  exists (stored n (text_of v)); split; [now apply inp_stored |].
  unfold execute, call; simpl normaliser_of; simpl validator.
  rewrite inp_stored by assumption; simpl.
  rewrite (RegexValidator_compiled pattern r _ R); simpl.
  destruct (matches r (stored n (text_of v))) eqn:M; simpl.
  - left; split; [now apply matches_Matches | reflexivity].
  - right; split; [| reflexivity].
    intro X; apply matches_Matches in X; congruence.
Qed.

(** ** The checksum routine of the source *)

Variable int_of : char -> option N.

Lemma _remove_non_digit_chars_true v :
  truthy v = true ->
  _remove_non_digit_chars v = PyStr (filter str_isdigit (text_of v)).
Proof.
  intro T; unfold _remove_non_digit_chars, _remove_other_chars.
  now rewrite T, (text_of_true _ T).
Qed.

(** X15: [_check_cpf] raises nothing, and it answers [None] for every input
    whose text does not hold exactly eleven characters that [str.isdigit]
    accepts: for [None], for the empty string and for a number too short or
    too long. *)
Theorem check_cpf_wrong_length v :
  length (filter str_isdigit (text_of v)) <> 11 ->
  _check_cpf int_of v = PyNone.
Proof.
  intro L; unfold _check_cpf.
  destruct (truthy v) eqn:T.
  - rewrite (_remove_non_digit_chars_true v T).
    now destruct (Nat.eqb_spec (length (filter str_isdigit (text_of v))) 11).
  - unfold _remove_non_digit_chars, _remove_other_chars; rewrite T.
    destruct v as [| b | z | s | d]; try reflexivity.
    destruct s; [reflexivity | discriminate].
Qed.

(** X16: for an input with eleven digits, the tenth of them a value below
    ten, [_check_cpf] answers a boolean, and [True] exactly when the weighted
    sum of the first nine digits modulo 11 is 2 or more and the last two
    digits are the check digits: an identifier whose first check digit is 0
    is refused, though it is valid. *)
Theorem check_cpf_accepts v c0 c1 c2 c3 c4 c5 c6 c7 c8 c9 c10
    d0 d1 d2 d3 d4 d5 d6 d7 d8 d9 d10 :
  filter str_isdigit (text_of v)
  = [c0; c1; c2; c3; c4; c5; c6; c7; c8; c9; c10] ->
  map int_of [c0; c1; c2; c3; c4; c5; c6; c7; c8; c9; c10]
  = map Some [d0; d1; d2; d3; d4; d5; d6; d7; d8; d9; d10] ->
  (d9 <= 9)%N ->
  let s1 := ((10 * d0 + 9 * d1 + 8 * d2 + 7 * d3 + 6 * d4 + 5 * d5 + 4 * d6
              + 3 * d7 + 2 * d8) mod 11)%N in
  let s2 := ((11 * d0 + 10 * d1 + 9 * d2 + 8 * d3 + 7 * d4 + 6 * d5 + 5 * d6
              + 4 * d7 + 3 * d8 + 2 * d9) mod 11)%N in
  (exists b, _check_cpf int_of v = PyBool b)
  /\ (_check_cpf int_of v = PyBool true
      <-> (2 <= s1)%N /\ digit_for s1 = d9 /\ digit_for s2 = d10)
  /\ ((s1 < 2)%N -> _check_cpf int_of v = PyBool false).
Proof.
  intros H M D9 s1 s2.
  assert (T : truthy v = true).
  { destruct (truthy v) eqn:T; [reflexivity |].
    rewrite (text_of_not_true _ T) in H; discriminate. }
  injection M as M0 M1 M2 M3 M4 M5 M6 M7 M8 M9 M10.
  assert (E : _check_cpf int_of v
              = if ((11 - s1) =? d9)%N then PyBool (digit_for s2 =? d10)%N
                else PyBool false).
  { unfold _check_cpf; rewrite (_remove_non_digit_chars_true v T), H.
    cbn -[N.modulo N.mul N.add N.eqb N.leb N.ltb N.sub].
    unfold dv; cbn -[N.modulo N.mul N.add N.eqb N.leb N.ltb N.sub].
    rewrite M0, M1, M2, M3, M4, M5, M6, M7, M8, M9, M10.
    cbn -[N.modulo N.mul N.add N.eqb N.leb N.ltb N.sub].
    replace (10 * d0 + (9 * d1 + (8 * d2 + (7 * d3 + (6 * d4 + (5 * d5
              + (4 * d6 + (3 * d7 + (2 * d8 + 0)))))))))%N
      with (10 * d0 + 9 * d1 + 8 * d2 + 7 * d3 + 6 * d4 + 5 * d5 + 4 * d6
            + 3 * d7 + 2 * d8)%N by lia.
    replace (11 * d0 + (10 * d1 + (9 * d2 + (8 * d3 + (7 * d4 + (6 * d5
              + (5 * d6 + (4 * d7 + (3 * d8 + (2 * d9 + 0))))))))))%N
      with (11 * d0 + 10 * d1 + 9 * d2 + 8 * d3 + 7 * d4 + 6 * d5 + 5 * d6
            + 4 * d7 + 3 * d8 + 2 * d9)%N by lia.
    fold s1 s2; unfold digit_for.
    destruct (N.leb_spec 2 s2), (N.ltb_spec s2 2); try lia; reflexivity. }
  assert (B : (s1 < 11)%N) by (apply N.mod_lt; discriminate).
  rewrite E; clearbody s1 s2; clear E.
  split; [destruct (11 - s1 =? d9)%N; eauto | split; [split |]].
  - intro X.
    destruct (N.eqb_spec (11 - s1) d9) as [Q | Q]; [| discriminate].
    injection X as X; apply N.eqb_eq in X.
    split; [lia | split; [| exact X]].
    unfold digit_for; destruct (N.ltb_spec s1 2); lia.
  - intros (S & X1 & X2); unfold digit_for in X1.
    destruct (N.ltb_spec s1 2); [lia |].
    rewrite (proj2 (N.eqb_eq _ _) X1), X2; now rewrite N.eqb_refl.
  - intro S; destruct (N.eqb_spec (11 - s1) d9); [lia | reflexivity].
Qed.

End MoreCleaning.

(** ** At Python's database *)

Lemma outp_idempotent_witness :
  exists d,
    outp CpfNormaliser (PyStr (lit " 697.200.105-68 ")) = Ok (PyStr d)
    /\ outp CpfNormaliser (PyStr d) = Ok (PyStr d).
Proof.
  apply (outp_idempotent CpfNormaliser (PyStr (lit " 697.200.105-68 "))
           eq_refl separators_plain).
  intro X; discriminate X.
Defined.

Lemma execute_again_witness :
  let c := Cleaner_init (Some PassportValidator) (Some PassportNormaliser)
             (Some (lit "xyz")) None in
  execute c (PyStr (lit "AA123456")) = Ok (PyStr (lit "AA123456"))
  /\ Cleaner_call c (PyStr (lit "AA123456")) = Ok (PyStr (lit "AA123456")).
Proof.
  intro c.
  apply (execute_again c (PyStr (lit " aa-123456 ")));
    [| reflexivity].
  intros _; apply latin1_upper_closed; vm_compute; repeat constructor.
Defined.

Lemma regex_cleaner_outcome_witness :
  let c := Cleaner_init (Some (RegexValidator (lit "[0-9]{9}")))
             (Some IDCardNormaliser) (Some (lit "xyz")) None in
  exists s,
    inp IDCardNormaliser (PyInt 123456789) = Ok (PyStr s)
    /\ ((Matches (Cat (rep (Class [(48, 57)]%N) 9 9) Eps) s
         /\ execute c (PyInt 123456789) = Ok (PyStr s))
        \/ (~ Matches (Cat (rep (Class [(48, 57)]%N) 9 9) Eps) s
            /\ execute c (PyInt 123456789)
               = Raise (exception c (exception_msg c)))).
Proof.
  apply (regex_cleaner_outcome (lit "[0-9]{9}")
           (Cat (rep (Class [(48, 57)]%N) 9 9) Eps) IDCardNormaliser
           (Some (lit "xyz")) None (PyInt 123456789)); reflexivity.
Defined.

Lemma check_cpf_wrong_length_witness :
  _check_cpf int_table (PyStr (lit "1114447773")) = PyNone.
Proof.
  apply (check_cpf_wrong_length int_table (PyStr (lit "1114447773"))).
  vm_compute; lia.
Defined.

(** The identifier 70600399109 of the tests, valid and refused. *)
Lemma check_cpf_accepts_witness :
  _check_cpf int_table (PyStr (lit "70600399109")) = PyBool false.
Proof.
  refine (proj2 (proj2
            (check_cpf_accepts int_table (PyStr (lit "70600399109"))
               55 48 54 48 48 51 57 57 49 48 57
               7 0 6 0 0 3 9 9 1 0 9 _ _ _))%N _);
    [reflexivity | reflexivity | lia | vm_compute; reflexivity].
Defined.

(** The examples of the docstring of [_check_cpf]. *)
Lemma check_cpf_examples :
  _check_cpf int_table (PyStr (lit "11144477735")) = PyBool true
  /\ _check_cpf int_table (PyStr (lit "11144477736")) = PyBool false
  /\ _check_cpf int_table (PyStr (lit "1114447773")) = PyNone
  /\ _check_cpf int_table PyNone = PyNone
  /\ _check_cpf int_table (PyStr (lit "1114447773" ++ [0xB2]%N)) = PyNone
  /\ _check_cpf int_table (PyStr (lit "70600399109")) = PyBool false
  /\ CpfValidator validate_cpf (PyStr (lit "70600399109")) = Ok (PyBool true).
Proof. repeat split; reflexivity. Qed.

(** ** The form of the view *)





(** ** The wrong kind of input, and the classes without a template *)

Section MoreValidators.

Context {U : unicode_database}.

(** X18: the validators check no type themselves: each of the seven regular
    expression validators raises [TypeError] for whatever is no text, [None]
    among it, and [DobValidator] for whatever is no date. *)
Theorem validators_raise_on_wrong_type today v :
  ((forall s, v <> PyStr s) ->
   Forall (fun validate => validate v = Raise TypeError)
     [NumericValidator; AlphaValidator; AlnumValidator; PhoneValidator;
      PassportValidator; IDCardValidator; PostCodeValidator])
  /\ ((forall d, v <> PyDate d) -> DobValidator today v = Raise TypeError).
Proof.
  split; intro H.
  - destruct v as [| b | z | s | d]; try (now destruct (H s));
      repeat constructor.
  - destruct v as [| b | z | s | d]; try (now destruct (H d)); reflexivity.
Qed.

(** X19: the classes that leave [_outp] alone display what they store: for
    [NullNormaliser], for [Normaliser] with any attributes and for the
    numeric, alphabetic and alphanumeric classes, [outp] returns what [inp]
    returns, for every input. *)
Theorem outp_is_inp a x :
  Forall (fun n => outp n x = inp n x)
    [NullNormaliser; Normaliser a; NumericNormaliser; AlphaNormaliser;
     AlnumNormaliser].
Proof.
  repeat apply Forall_cons; try apply Forall_nil; try reflexivity;
    rewrite outp_displayed, inp_stored by reflexivity; reflexivity.
Qed.

End MoreValidators.
